(** * The JSON-RPC dispatcher of zato.common.json_rpc and the ORDER BY
    builder of zato.sso.user_search, embedded as Rocq functions.

    Python objects are values of [pyobj]; a call either returns a value or
    raises, which is the [outcome] monad; the [try] block of
    [_handle_one_item] mutates the response object [out] before it may raise,
    so it runs in [Try], which threads [out] and keeps it when an exception
    is raised. *)

From stdpp Require Import gmap strings list fin_maps pretty.
From Stdlib Require Import ZArith PrimFloat Ascii.

Set Warnings "-register-all".
Local Open Scope Z_scope.

(** ** Python values *)

(** The objects the dispatcher sees: decoded JSON (None, booleans, integers,
    floats, unicode strings, lists, dicts with string keys), tuples, and the
    sentinel [NotGiven]. *)
Inductive pyobj : Type :=
| PyNone
| PyBool (b : bool)
| PyInt (n : Z)
| PyFloat (x : float)
| PyStr (s : string)
| PyList (l : list pyobj)
| PyTuple (l : list pyobj)
| PyDict (d : gmap string pyobj)
| NotGiven.

(** Modelled from the spec: [zato.common.NotGiven] is imported by json_rpc.py
    and defined elsewhere; it is the distinguished "not given" marker, distinct
    from None and from every decoded JSON value.  [is_NotGiven o] is the test
    [o is NotGiven]. *)
Definition is_NotGiven (o : pyobj) : bool :=
  match o with NotGiven => true | _ => false end.

(** [bool(o)], the test an [if o:] statement applies. *)
Definition truthy (o : pyobj) : bool :=
  match o with
  | PyNone => false
  | PyBool b => b
  | PyInt n => negb (n =? 0)
  | PyFloat x => negb (PrimFloat.eqb x PrimFloat.zero)
  | PyStr s => negb (String.eqb s "")
  | PyList l => negb (length l =? 0)%nat
  | PyTuple l => negb (length l =? 0)%nat
  | PyDict d => negb (size d =? 0)%nat
  | NotGiven => true
  end.

(** [type(o).__name__], as it appears in the interpreter's error texts. *)
Definition type_name (o : pyobj) : string :=
  match o with
  | PyNone => "NoneType"
  | PyBool _ => "bool"
  | PyInt _ => "int"
  | PyFloat _ => "float"
  | PyStr _ => "unicode"
  | PyList _ => "list"
  | PyTuple _ => "tuple"
  | PyDict _ => "dict"
  | NotGiven => "classobj"
  end.

(** [o == s] for a unicode literal [s]: only an equal string compares equal. *)
Definition py_eq_str (o : pyobj) (s : string) : bool :=
  match o with
  | PyStr s' => String.eqb s' s
  | _ => false
  end.

(** [template.format( *args )] is the interpreter's; how it renders an
    arbitrary object is not fixed by the sources, so it is an interface:
    [str_format] is the string the call returns when it returns. *)
Class Formatter := str_format : string → list pyobj → string.

(** The call can also raise: a unicode template given a byte string that is
    not ASCII raises UnicodeDecodeError, an argument nested past the
    recursion limit raises RuntimeError.  [format_failure template args] is
    the class and the text of the exception, an instance of [Exception],
    when the call raises on these arguments. *)
Class FormatFailure :=
  format_failure : string → list pyobj → option (string * string).

(** ** Exceptions *)

(** The JSON-RPC exception classes of json_rpc.py, and the classes derived
    from them elsewhere, which a backend may raise: [JSONRPCSubclass name
    code] is such a class with the [code] attribute it inherits or sets.
    [JSONRPCBadRequest] defines no code of its own and inherits the one of
    [JSONRPCException]. *)
Inductive JSONRPCException_class : Type :=
| JSONRPCBadRequest
| InvalidRequest
| MethodNotFound
| InternalError
| ParseError
| JSONRPCSubclass (name : string) (code : Z).

Definition JSONRPCException_code : Z := -32000.

Definition code_of (cls : JSONRPCException_class) : Z :=
  match cls with
  | JSONRPCBadRequest => JSONRPCException_code
  | InvalidRequest => -32600
  | MethodNotFound => -32601
  | InternalError => -32603
  | ParseError => -32700
  | JSONRPCSubclass _ code => code
  end.

(** What a [raise] can carry.
    - [JSONRPCError cls cid message]: an instance of one of the classes
      above, all of which derive from [JSONRPCException] and, through
      BadRequest or InternalServerError, from [Exception].
    - [StandardError cls text]: an instance of any other class that derives
      from [Exception] (AttributeError, TypeError, ValueError, a backend's
      own error, ...), with the text it was raised with.
    - [SystemExiting cls]: an instance of a class that derives from
      [BaseException] but not from [Exception] (KeyboardInterrupt,
      SystemExit, GeneratorExit). *)
Inductive pyexc : Type :=
| JSONRPCError (cls : JSONRPCException_class) (cid : pyobj) (message : string)
| StandardError (cls : string) (text : string)
| SystemExiting (cls : string).

(** [isinstance(e, Exception)], the test of an [except Exception] clause. *)
Definition isinstance_Exception (e : pyexc) : bool :=
  match e with
  | JSONRPCError _ _ _ | StandardError _ _ => true
  | SystemExiting _ => false
  end.

(** [isinstance(e, JSONRPCException)]. *)
Definition isinstance_JSONRPCException (e : pyexc) : bool :=
  match e with
  | JSONRPCError _ _ _ => true
  | StandardError _ _ | SystemExiting _ => false
  end.

(** Modelled from the spec: [e.message].  The base classes BadRequest and
    InternalServerError (zato.common.exception), whose constructors receive
    the message, are not among these sources; by the specification an error
    kind carries the cid and the message it is constructed with, and the
    dispatcher copies that message. *)
Definition exc_message (e : pyexc) : string :=
  match e with
  | JSONRPCError _ _ message => message
  | StandardError _ text => text
  | SystemExiting _ => ""
  end.

(** ** Calls that return or raise *)

Inductive outcome (A : Type) : Type :=
| Return (a : A)
| Raise (e : pyexc).
Arguments Return {A} a.
Arguments Raise {A} e.

#[global] Instance outcome_ret : MRet outcome := λ A a, Return a.
#[global] Instance outcome_bind : MBind outcome := λ A B f m,
  match m with
  | Return a => f a
  | Raise e => Raise e
  end.

(** A block of statements that updates a local object of type [S] and may
    raise: the object is returned in both cases, as the handler of an
    enclosing [try] still sees the assignments made before the [raise]. *)
Definition Try (S A : Type) : Type := S → outcome A * S.

#[global] Instance Try_ret {S} : MRet (Try S) := λ A a s, (Return a, s).
#[global] Instance Try_bind {S} : MBind (Try S) := λ A B f m s,
  match m s with
  | (Return a, s') => f a s'
  | (Raise e, s') => (Raise e, s')
  end.

Definition call {S A} (m : outcome A) : Try S A := λ s, (m, s).
Definition raise {S A} (e : pyexc) : Try S A := λ s, (Raise e, s).
Definition assign {S} (f : S → S) : Try S unit := λ s, (Return tt, f s).
Definition read {S} : Try S S := λ s, (Return s, s).

(** [o.get(key, default)]: the attribute [get] exists on dicts only. *)
Definition py_get (o : pyobj) (key : string) (default : pyobj) : outcome pyobj :=
  match o with
  | PyDict d => Return (match d !! key with Some v => v | None => default end)
  | _ => Raise (StandardError "AttributeError"
                  ("'" +:+ type_name o +:+ "' object has no attribute 'get'"))
  end.

(** [template.format( *args )] as a call: it raises when the interpreter
    says so and returns the formatted string otherwise.  The dispatcher
    formats the messages of its own exceptions inside the [try] block, so
    that a failure of the call is answered by the handler of that block. *)
Definition py_format {fmt : Formatter} {ff : FormatFailure}
    (template : string) (args : list pyobj) : outcome string :=
  match format_failure template args with
  | Some (cls, text) => Raise (StandardError cls text)
  | None => Return (str_format template args)
  end.

(** The characters of a unicode string, each a string of length one. *)
Fixpoint py_chars (s : string) : list pyobj :=
  match s with
  | EmptyString => []
  | String c s' => PyStr (String c EmptyString) :: py_chars s'
  end.

(** The items a [for x in o] loop visits: the elements of a list or tuple,
    the characters of a string, the keys of a dict; other objects are not
    iterable. *)
Definition py_iter (o : pyobj) : outcome (list pyobj) :=
  match o with
  | PyList l | PyTuple l => Return l
  | PyStr s => Return (py_chars s)
  | PyDict d => Return (PyStr <$> (map_to_list d).*1)
  | _ => Raise (StandardError "TypeError"
                  ("'" +:+ type_name o +:+ "' object is not iterable"))
  end.

(** ** zato.common.json_rpc *)

Definition json_rpc_version_supported : string := "2.0".

Module RequestContext.
Record t : Type := mk {
  cid : pyobj;
  orig_message : pyobj;
  message : pyobj;
}.
End RequestContext.

Module ErrorCtx.
Record t : Type := mk {
  cid : pyobj;
  code : pyobj;
  message : pyobj;
}.

Definition __init__ : t := {| cid := PyNone; code := PyNone; message := PyNone |}.

Definition to_dict (self : t) : pyobj :=
  PyDict (<["code" := code self]>
         (<["message" := message self]>
         {["data" := PyDict {["ctx" := PyDict {["cid" := cid self]}]}]})).
End ErrorCtx.

Module ItemResponse.
Record t : Type := mk {
  id : pyobj;
  cid : pyobj;
  error : option ErrorCtx.t;
  result : pyobj;
}.

Definition __init__ : t :=
  {| id := PyNone; cid := PyNone; error := None; result := PyNone |}.

Definition set_id (v : pyobj) (self : t) : t :=
  {| id := v; cid := cid self; error := error self; result := result self |}.
Definition set_error (v : ErrorCtx.t) (self : t) : t :=
  {| id := id self; cid := cid self; error := Some v; result := result self |}.
Definition set_result (v : pyobj) (self : t) : t :=
  {| id := id self; cid := cid self; error := error self; result := v |}.

(** [self.error.to_dict()]: [self.error] is None until it is assigned. *)
Definition error_to_dict (self : t) : outcome pyobj :=
  match error self with
  | Some e => Return (ErrorCtx.to_dict e)
  | None => Raise (StandardError "AttributeError"
                     "'NoneType' object has no attribute 'to_dict'")
  end.

Definition to_dict (self : t) : outcome pyobj :=
  let out : gmap string pyobj :=
    <["jsonrpc" := PyStr json_rpc_version_supported]> {["id" := id self]} in
  if truthy (result self) then
    Return (PyDict (<["result" := result self]> out))
  else
    e ← error_to_dict self;
    Return (PyDict (<["error" := e]> out)).
End ItemResponse.

Module JSONRPCItem.
Record t : Type := mk {
  jsonrpc : pyobj;
  method : pyobj;
  params : pyobj;
  id : pyobj;
  needs_response : bool;
}.

Definition to_dict (self : t) : pyobj :=
  PyDict (<["jsonrpc" := jsonrpc self]>
         (<["method" := method self]>
         (<["params" := params self]>
         {["id" := id self]}))).

Definition from_dict (item : pyobj) : outcome t :=
  jsonrpc ← py_get item "jsonrpc" PyNone;
  id ← py_get item "id" NotGiven;
  method ← py_get item "method" PyNone;
  params ← py_get item "params" PyNone;
  Return {| jsonrpc := jsonrpc; method := method; params := params; id := id;
            needs_response := negb (is_NotGiven id) |}.
End JSONRPCItem.

Module JSONRPCHandler.
(** The handler's configuration (a Bunch): the two entries the handler
    reads. *)
Record Config : Type := mkConfig {
  name : string;
  service_whitelist : list string;
}.

(** [invoke_func(method, params, skip_response_elem=True)] is the backend
    invoker given to the constructor; it returns a value or raises, and is
    taken as a function of the method and the parameters. *)
Record t : Type := mk {
  config : Config;
  invoke_func : pyobj → pyobj → outcome pyobj;
}.

Definition can_handle (self : t) (method : pyobj) : bool :=
  existsb (py_eq_str method) (service_whitelist (config self)).

Section handle.
Context {fmt : Formatter} {ff : FormatFailure}.

(** The body of the [try] statement of [_handle_one_item], from
    [item = JSONRPCItem.from_dict(message)] on; it starts from
    [out = ItemResponse()]. *)
Definition try_block (self : t) (cid message orig_message : pyobj)
  : Try ItemResponse.t pyobj :=
  item ← call (JSONRPCItem.from_dict message);
  assign (ItemResponse.set_id (JSONRPCItem.id item));;
  (if negb (py_eq_str (JSONRPCItem.jsonrpc item) json_rpc_version_supported)
   then
     message ← call (py_format "Unsupported JSON-RPC version `{}` in `{}`"
                               [JSONRPCItem.jsonrpc item; orig_message]);
     raise (JSONRPCError InvalidRequest cid message)
   else mret tt);;
  (if negb (can_handle self (JSONRPCItem.method item))
   then
     message ← call (py_format "Method not supported `{}` in `{}`"
                               [JSONRPCItem.method item; orig_message]);
     raise (JSONRPCError MethodNotFound cid message)
   else mret tt);;
  service_response ← call (invoke_func self (JSONRPCItem.method item)
                                            (JSONRPCItem.params item));
  assign (ItemResponse.set_result service_response);;
  if JSONRPCItem.needs_response item
  then out ← read; call (ItemResponse.to_dict out)
  else mret PyNone.

(** The body of [except Exception as e], run on the [out] the [try] block
    left behind.  The warning it logs is not part of what is returned. *)
Definition except_block (cid : pyobj) (e : pyexc) (out : ItemResponse.t)
  : outcome pyobj :=
  let error_ctx := ErrorCtx.__init__ in
  let error_ctx := {| ErrorCtx.cid := cid;
                      ErrorCtx.code := ErrorCtx.code error_ctx;
                      ErrorCtx.message := ErrorCtx.message error_ctx |} in
  let '(err_code, err_message) :=
    match e with
    | JSONRPCError cls _ _ =>
        (* isinstance(e, JSONRPCException): e.code, e.message *)
        (code_of cls, exc_message e)
    | _ => (JSONRPCException_code, "Message could not be handled"%string)
    end in
  let error_ctx := {| ErrorCtx.cid := ErrorCtx.cid error_ctx;
                      ErrorCtx.code := PyInt err_code;
                      ErrorCtx.message := PyStr err_message |} in
  ItemResponse.to_dict (ItemResponse.set_error error_ctx out).

Definition _handle_one_item (self : t) (cid message orig_message : pyobj)
  : outcome pyobj :=
  match try_block self cid message orig_message ItemResponse.__init__ with
  | (Return r, _) => Return r
  | (Raise e, out) =>
      if isinstance_Exception e then except_block cid e out else Raise e
  end.

Definition handle_one_item (self : t) (ctx : RequestContext.t) : outcome pyobj :=
  _handle_one_item self (RequestContext.cid ctx) (RequestContext.message ctx)
                   (RequestContext.orig_message ctx).

(** The [for] loop of [handle_list]: [out.append(...)] per visited item,
    stopping at the first call that raises. *)
Fixpoint handle_list_loop (self : t) (ctx : RequestContext.t)
    (items : list pyobj) (out : list pyobj) : outcome (list pyobj) :=
  match items with
  | [] => Return out
  | item :: items' =>
      r ← _handle_one_item self (RequestContext.cid ctx) item
                           (RequestContext.orig_message ctx);
      handle_list_loop self ctx items' (out ++ [r])
  end.

Definition handle_list (self : t) (ctx : RequestContext.t) : outcome pyobj :=
  items ← py_iter (RequestContext.message ctx);
  out ← handle_list_loop self ctx items [];
  Return (PyList out).

Definition handle (self : t) (ctx : RequestContext.t) : outcome pyobj :=
  match RequestContext.message ctx with
  | PyList _ => handle_list self ctx
  | _ => handle_one_item self ctx
  end.
End handle.
End JSONRPCHandler.

(** ** Reading a returned envelope *)

(** [o[key]] for a returned dict, [None] when [o] is not a dict or has no
    such key. *)
Definition field (o : pyobj) (key : string) : option pyobj :=
  match o with
  | PyDict d => d !! key
  | _ => None
  end.

(** [o["error"][key]]. *)
Definition error_field (o : pyobj) (key : string) : option pyobj :=
  e ← field o "error"; field e key.

(** [o["error"]["data"]["ctx"]["cid"]]. *)
Definition error_cid (o : pyobj) : option pyobj :=
  data ← error_field o "data"; ctx ← field data "ctx"; field ctx "cid".

(** A success envelope has the keys jsonrpc, id and result; an error
    envelope has jsonrpc, id and error. *)
Definition is_success_envelope (o : pyobj) : Prop :=
  field o "jsonrpc" = Some (PyStr "2.0") ∧ is_Some (field o "id") ∧
  is_Some (field o "result") ∧ field o "error" = None.

Definition is_error_envelope (o : pyobj) : Prop :=
  field o "jsonrpc" = Some (PyStr "2.0") ∧ is_Some (field o "id") ∧
  is_Some (error_field o "code") ∧ is_Some (error_field o "message") ∧
  is_Some (error_cid o) ∧ field o "result" = None.

(** The values [JSONRPCItem.from_dict] reads from a request object. *)
Definition get_or (d : gmap string pyobj) (key : string) (default : pyobj) : pyobj :=
  match d !! key with Some v => v | None => default end.


(** A backend invoker that, when it raises, raises an instance of
    [Exception]. *)
Definition raises_only_Exception (invoke_func : pyobj → pyobj → outcome pyobj)
  : Prop :=
  ∀ method params e,
    invoke_func method params = Raise e → isinstance_Exception e = true.

(** A request object that is a notification and is carried out: it has no
    id, its version and method pass, and the invocation returns. *)
Definition notification_succeeds (self : JSONRPCHandler.t)
    (d : gmap string pyobj) : Prop :=
  d !! "id" = None ∧
  d !! "jsonrpc" = Some (PyStr "2.0") ∧
  JSONRPCHandler.can_handle self (get_or d "method" PyNone) = true ∧
  ∃ v, JSONRPCHandler.invoke_func self (get_or d "method" PyNone)
                                  (get_or d "params" PyNone) = Return v.

(** The envelope [except_block] builds: [code] and [message] under "error",
    next to the identifier [id] the response object holds. *)
Definition error_envelope (id cid : pyobj) (code : Z) (message : string) : pyobj :=
  PyDict (<["error" := ErrorCtx.to_dict
                         {| ErrorCtx.cid := cid; ErrorCtx.code := PyInt code;
                            ErrorCtx.message := PyStr message |}]>
         (<["jsonrpc" := PyStr json_rpc_version_supported]> {["id" := id]})).

Definition success_envelope (id result : pyobj) : pyobj :=
  PyDict (<["result" := result]>
         (<["jsonrpc" := PyStr json_rpc_version_supported]> {["id" := id]})).

(** What [raise cls(cid, template.format( *args ))] raises: the exception
    of the [format] call if that raises, the JSON-RPC exception with the
    formatted message otherwise. *)
Definition validation_error {fmt : Formatter} {ff : FormatFailure}
    (cls : JSONRPCException_class) (cid : pyobj) (template : string)
    (args : list pyobj) : pyexc :=
  match format_failure template args with
  | Some (failure, text) => StandardError failure text
  | None => JSONRPCError cls cid (str_format template args)
  end.

(** The code and message the handler reports for a caught exception. *)
Definition reported (e : pyexc) : Z * string :=
  match e with
  | JSONRPCError cls _ _ => (code_of cls, exc_message e)
  | _ => (JSONRPCException_code, "Message could not be handled"%string)
  end.

(** ** zato.sso.user_search *)

(** sqlalchemy's [asc] and [desc], applied to a column name. *)
Inductive order_clause : Type :=
| asc (column : string)
| desc (column : string).

(** The values the attributes of an [OrderBy] instance hold: a string, a set
    of strings, a tuple of ORDER BY clauses. *)
Inductive attr : Type :=
| AStr (s : string)
| ASet (s : gset string)
| AClauses (l : list order_clause).

(** [obj.name] on an instance whose attributes are [obj]: reading an
    attribute that was never assigned raises AttributeError. *)
Definition getattr (cls : string) (obj : gmap string attr) (name : string)
  : outcome attr :=
  match obj !! name with
  | Some a => Return a
  | None => Raise (StandardError "AttributeError"
              ("'" +:+ cls +:+ "' object has no attribute '" +:+ name +:+ "'"))
  end.

(** [x in a]: membership in a set hashes [x]; in a string it is the
    substring test and needs a string; in a tuple of clauses it compares
    [x] with a clause, whose truth value sqlalchemy leaves undefined. *)
Definition py_in (x : pyobj) (a : attr) : outcome bool :=
  match a with
  | ASet s =>
      match x with
      | PyStr k => Return (bool_decide (k ∈ s))
      | PyList _ | PyDict _ =>
          Raise (StandardError "TypeError"
                   ("unhashable type: '" +:+ type_name x +:+ "'"))
      | _ => Return false
      end
  | AStr s =>
      match x with
      | PyStr k => Return (bool_decide (is_Some (String.index 0 k s)))
      | _ => Raise (StandardError "TypeError"
                      "'in <string>' requires string as left operand")
      end
  | AClauses l =>
      match l with
      | [] => Return false
      | _ => Raise (StandardError "TypeError"
                      "Boolean value of this clause is not defined")
      end
  end.

(** [x == a] for an attribute value [a]. *)
Definition py_eq_attr (x : pyobj) (a : attr) : bool :=
  match a with
  | AStr s => py_eq_str x s
  | _ => false
  end.

(** [o.items()]: the (key, value) pairs of a dict; other objects have no
    such attribute. *)
Definition py_items (o : pyobj) : outcome (list (string * pyobj)) :=
  match o with
  | PyDict d => Return (map_to_list d)
  | _ => Raise (StandardError "AttributeError"
                  ("'" +:+ type_name o +:+ "' object has no attribute 'items'"))
  end.

Module OrderBy.
(** The attributes [__init__] assigns, in its order: asc, desc, dir_allowed,
    out_columns_allowed, default. *)
Definition __init__ : gmap string attr :=
  let self : gmap string attr := ∅ in
  let self := <["asc" := AStr "asc"]> self in
  let self := <["desc" := AStr "desc"]> self in
  let self := <["dir_allowed" := ASet {["asc"; "desc"]}]> self in
  let self := <["out_columns_allowed" :=
                  ASet {["display_name"; "username"; "sign_up_time"; "user_id"]}]> self in
  <["default" := AClauses [asc "display_name"; asc "username";
                           asc "sign_up_time"; asc "user_id"]]> self.
End OrderBy.

Module SSOSearch.
(** [self.order_by] is the one attribute of an [SSOSearch] the ORDER BY path
    reads; the column maps [__init__] also builds refer to the SSOUser table,
    which is declared elsewhere, and are used by [_get_where] only. *)
Record t : Type := mk {
  order_by : gmap string attr;
}.

Definition __init__ : t := {| order_by := OrderBy.__init__ |}.

Section search.
Context {fmt : Formatter}.
(** [_get_where] builds the WHERE clause from SSOUser columns and sqlalchemy
    operators and [util_search] runs the query; both are declared outside
    these sources and are taken as they come: a call returns or raises. *)
Context {Session Where SearchResults : Type}.
Variable _get_where : t → pyobj → outcome Where.
Variable util_search : pyobj → Session → attr → Where → outcome SearchResults.

(** One round of the loop of [_get_order_by].  Every element of [items] is a
    (key, value) pair, so [len(items[0]) != 2] is never true. *)
Definition _get_order_by_item (self : t) (item : pyobj) : outcome order_clause :=
  items ← py_items item;
  match items with
  | [(column, dir)] =>
      columns_allowed ← getattr "OrderBy" (order_by self) "columns_allowed";
      column_ok ← py_in (PyStr column) columns_allowed;
      if negb column_ok then
        Raise (StandardError "ValueError"
                 (str_format "Invalid order_by column `{}`" [PyStr column]))
      else
        dir_allowed ← getattr "OrderBy" (order_by self) "dir_allowed";
        dir_ok ← py_in dir dir_allowed;
        if negb dir_ok then
          Raise (StandardError "ValueError"
                   (str_format "Invalid order_by dir `{}`" [dir]))
        else
          asc_ ← getattr "OrderBy" (order_by self) "asc";
          let func := if py_eq_attr dir asc_ then asc else desc in
          Return (func column)
  | _ =>
      Raise (StandardError "ValueError"
               (str_format "Invalid order_by config `{}`"
                  [PyList ((λ kv, PyTuple [PyStr kv.1; kv.2]) <$> items)]))
  end.

Fixpoint _get_order_by_loop (self : t) (items : list pyobj)
    (out : list order_clause) : outcome (list order_clause) :=
  match items with
  | [] => Return out
  | item :: items' =>
      clause ← _get_order_by_item self item;
      _get_order_by_loop self items' (out ++ [clause])
  end.

Definition _get_order_by (self : t) (order_by : pyobj)
  : outcome (list order_clause) :=
  items ← py_iter order_by;
  _get_order_by_loop self items [].

Definition search (self : t) (session : Session) (config : pyobj)
  : outcome SearchResults :=
  where_ ← _get_where self config;
  order_by ← py_get config "order_by" PyNone;
  order_by ← (if truthy order_by
              then out ← _get_order_by self order_by; Return (AClauses out)
              else getattr "OrderBy" (SSOSearch.order_by self) "default");
  util_search config session order_by where_.
End search.
End SSOSearch.

(** ** zato.sso.user_search: the WHERE clause *)

(** The sqlalchemy expressions the search builds, kept as terms: a column
    compared with a value ([column.__eq__(value)]), a column that contains a
    value ([column.contains(value)]), and the conjunction and disjunction of
    clauses ([and_( *clauses )], [or_( *clauses )]).  A column of SSOUser is
    named by its attribute. *)
Inductive sql_expr : Type :=
| sql_eq (column : string) (value : pyobj)
| sql_contains (column : string) (value : pyobj)
| sql_and (clauses : list sql_expr)
| sql_or (clauses : list sql_expr).

(** [zato.sso.const.search] is declared outside these sources: the labels
    [const.search.and_] and [const.search.or_], and the labels
    [set(const.search())] collects. *)
Class SearchConst := {
  search_and_ : string;
  search_or_ : string;
  search_labels : gset string;
}.

(** [unicode.strip] and [unicode.upper] are the interpreter's. *)
Class UnicodeOps := {
  py_strip : string → string;
  py_upper : string → string;
}.

(** [hash(o)] exists: lists and dicts are unhashable, a tuple is hashable
    when its elements are. *)
Fixpoint hashable (o : pyobj) : bool :=
  match o with
  | PyList _ | PyDict _ => false
  | PyTuple l => forallb hashable l
  | _ => true
  end.

(** The boolean a key equals, if any: True and False equal themselves, the
    integers and the floats 1 and 0, and nothing else here. *)
Definition as_bool_key (o : pyobj) : option bool :=
  match o with
  | PyBool b => Some b
  | PyInt n => if n =? 1 then Some true else if n =? 0 then Some false else None
  | PyFloat x =>
      if PrimFloat.eqb x PrimFloat.one then Some true
      else if PrimFloat.eqb x PrimFloat.zero then Some false
      else None
  | _ => None
  end.

(** [config.get(key, _does_not_exist)], with the marker read as [None]. *)
Definition py_lookup (o : pyobj) (key : string) : outcome (option pyobj) :=
  match o with
  | PyDict d => Return (d !! key)
  | _ => Raise (StandardError "AttributeError"
                  ("'" +:+ type_name o +:+ "' object has no attribute 'get'"))
  end.

(** [key in o] for a dict [o]. *)
Definition py_has_key (o : pyobj) (key : string) : outcome bool :=
  match o with
  | PyDict d => Return (bool_decide (is_Some (d !! key)))
  | _ => Raise (StandardError "TypeError"
                  ("argument of type '" +:+ type_name o +:+ "' is not iterable"))
  end.

Module SSOSearchWhere.
(** The maps [SSOSearch.__init__] builds, which no method changes. *)
Definition name_columns : gmap string string :=
  <["last_name" := "last_name_upper"]>
  (<["middle_name" := "middle_name_upper"]>
  (<["first_name" := "first_name_upper"]>
  {["display_name" := "display_name_upper"]})).

Definition _name_column_op : gmap (string * bool) (pyobj → sql_expr) :=
  <[("last_name_upper", false) := sql_contains "last_name_upper"]>
  (<[("middle_name_upper", false) := sql_contains "middle_name_upper"]>
  (<[("first_name_upper", false) := sql_contains "first_name_upper"]>
  (<[("display_name_upper", false) := sql_contains "display_name_upper"]>
  (<[("last_name_upper", true) := sql_eq "last_name_upper"]>
  (<[("middle_name_upper", true) := sql_eq "middle_name_upper"]>
  (<[("first_name_upper", true) := sql_eq "first_name_upper"]>
  {[("display_name_upper", true) := sql_eq "display_name_upper"]})))))).

Definition _non_name_column_op : gmap string (pyobj → sql_expr) :=
  <["approval_status" := sql_eq "approval_status"]>
  (<["sign_up_status" := sql_eq "sign_up_status"]>
  {["email" := sql_eq "email"]}).

Definition _user_id_op : pyobj → sql_expr := sql_eq "user_id".
Definition _username_op : pyobj → sql_expr := sql_eq "username".

Section where_.
Context {fmt : Formatter} {const : SearchConst} {uni : UnicodeOps}.

Definition name_op_allowed : gset string := search_labels.

(** [{const.search.and_: sql_and, const.search.or_: sql_or}]. *)
Definition name_op_sa : gmap string (list sql_expr → sql_expr) :=
  <[search_or_ := sql_or]> {[search_and_ := sql_and]}.

(** [name_op_sa[name_op]]. *)
Definition name_op_sa_getitem (name_op : pyobj)
  : outcome (list sql_expr → sql_expr) :=
  if negb (hashable name_op) then
    Raise (StandardError "TypeError"
             ("unhashable type: '" +:+ type_name name_op +:+ "'"))
  else
    match name_op with
    | PyStr label =>
        match name_op_sa !! label with
        | Some f => Return f
        | None => Raise (StandardError "KeyError" label)
        end
    | _ => Raise (StandardError "KeyError" (type_name name_op))
    end.

(** [self._name_column_op[(column, name_exact)]]. *)
Definition _name_column_op_getitem (column : string) (name_exact : pyobj)
  : outcome (pyobj → sql_expr) :=
  if negb (hashable name_exact) then
    Raise (StandardError "TypeError"
             ("unhashable type: '" +:+ type_name name_exact +:+ "'"))
  else
    match as_bool_key name_exact with
    | Some b =>
        match _name_column_op !! (column, b) with
        | Some func => Return func
        | None => Raise (StandardError "KeyError" column)
        end
    | None => Raise (StandardError "KeyError" column)
    end.

Definition _get_where_user_id (user_id : pyobj) : sql_expr := _user_id_op user_id.

Definition _get_where_username (username : pyobj) : sql_expr :=
  _username_op username.

(** One round of the first loop of [_get_where_name]: the entry is checked
    and turned into a column and an upper-case value. *)
Definition name_criterion_raw (column_key : string) (value : pyobj)
  : outcome (string * string) :=
  match name_columns !! column_key with
  | None =>
      Raise (StandardError "ValueError"
               (str_format "Invalid name key `{}`" [PyStr column_key]))
  | Some column =>
      match value with
      | PyStr value =>
          let value := py_strip value in
          if negb (truthy (PyStr value)) then
            Raise (StandardError "ValueError"
                     (str_format "Value must not be empty, key `{}`"
                                 [PyStr column_key]))
          else Return (column, py_upper value)
      | _ =>
          Raise (StandardError "ValueError"
                   (str_format "Invalid value `{}`" [value]))
      end
  end.

Fixpoint name_criteria_raw_loop (items : list (string * pyobj))
    (name_criteria_raw : list (string * string))
  : outcome (list (string * string)) :=
  match items with
  | [] => Return name_criteria_raw
  | (column_key, value) :: items' =>
      raw ← name_criterion_raw column_key value;
      name_criteria_raw_loop items' (name_criteria_raw ++ [raw])
  end.

(** The second loop: one clause per raw criterion. *)
Fixpoint name_criteria_loop (name_exact : pyobj)
    (name_criteria_raw : list (string * string)) (name_criteria : list sql_expr)
  : outcome (list sql_expr) :=
  match name_criteria_raw with
  | [] => Return name_criteria
  | (column, value) :: raw' =>
      func ← _name_column_op_getitem column name_exact;
      name_criteria_loop name_exact raw' (name_criteria ++ [func (PyStr value)])
  end.

Definition _get_where_name (name name_exact name_op : pyobj)
  : outcome (option sql_expr) :=
  match name with
  | PyDict name =>
      name_criteria_raw ← name_criteria_raw_loop (map_to_list name) [];
      name_op ←
        (if truthy name_op then
           allowed ←
             (if negb (hashable name_op) then
                Raise (StandardError "TypeError"
                         ("unhashable type: '" +:+ type_name name_op +:+ "'"))
              else py_in name_op (ASet name_op_allowed));
           if negb (allowed : bool) then
             Raise (StandardError "ValueError"
                      (str_format "Invalid name_op `{}`" [name_op]))
           else Return name_op
         else Return (PyStr search_and_));
      name_op ← name_op_sa_getitem name_op;
      match name_criteria_raw with
      | [] => Return None
      | _ =>
          name_criteria ← name_criteria_loop name_exact name_criteria_raw [];
          Return (Some (name_op name_criteria))
      end
  | _ =>
      Raise (StandardError "ValueError"
               (str_format "Invalid name `{}`" [name]))
  end.

(** The loop of [_get_where_non_name] over the keys of
    [_non_name_column_op]. *)
Fixpoint non_name_loop (config : pyobj)
    (columns : list (string * (pyobj → sql_expr)))
    (non_name_criteria : list sql_expr) : outcome (list sql_expr) :=
  match columns with
  | [] => Return non_name_criteria
  | (non_name, op) :: columns' =>
      value ← py_lookup config non_name;
      match value with
      | None => non_name_loop config columns' non_name_criteria
      | Some value =>
          match value with
          | PyNone | PyStr _ =>
              non_name_loop config columns' (non_name_criteria ++ [op value])
          | _ =>
              Raise (StandardError "ValueError"
                       (str_format "Invalid value `{}`" [value]))
          end
      end
  end.

Definition _get_where_non_name (config : pyobj) : outcome (option sql_expr) :=
  email ← py_get config "email" PyNone;
  (if truthy email then
     enabled ← py_get config "email_search_enabled" PyNone;
     if negb (truthy enabled) then
       Raise (StandardError "ValueError" "Cannot look up users by email")
     else Return tt
   else Return tt);;
  non_name_criteria ← non_name_loop config (map_to_list _non_name_column_op) [];
  match non_name_criteria with
  | [] => Return None
  | _ => Return (Some (sql_and non_name_criteria))
  end.

Definition _get_where (config : pyobj) : outcome sql_expr :=
  username ← py_get config "username" PyNone;
  user_id ← py_get config "user_id" PyNone;
  if truthy username || truthy user_id then
    if truthy user_id then Return (_get_where_user_id user_id)
    else Return (_get_where_username username)
  else (
    has_name ← py_has_key config "name";
    name_where ←
      (if (has_name : bool) then
         name ← py_get config "name" PyNone;
         name_exact ← py_get config "name_exact" PyNone;
         name_op ← py_get config "name_op" PyNone;
         _get_where_name name name_exact name_op
       else Return None);
    non_name_where ← _get_where_non_name config;
    match name_where, non_name_where with
    | Some name_where, None => Return name_where
    | Some name_where, Some non_name_where =>
        Return (sql_and [name_where; non_name_where])
    | None, Some non_name_where => Return non_name_where
    | None, None =>
        Raise (StandardError "UnboundLocalError"
                 "local variable 'where' referenced before assignment")
    end).
End where_.
End SSOSearchWhere.

(** ** Sample objects for the examples *)

(** A formatter for the examples: it puts the arguments, rendered by
    [sample_str], into the successive [{}] fields of the template. *)
Definition sample_str (o : pyobj) : string :=
  match o with
  | PyNone => "None"
  | PyBool true => "True"
  | PyBool false => "False"
  | PyInt n => pretty n
  | PyStr s => s
  | _ => "<" +:+ type_name o +:+ ">"
  end.

Fixpoint fill_fields (template : string) (args : list string) : string :=
  match template with
  | String "{"%char (String "}"%char rest) =>
      match args with
      | a :: args' => a +:+ fill_fields rest args'
      | [] => fill_fields rest []
      end
  | String c rest => String c (fill_fields rest args)
  | EmptyString => EmptyString
  end.

Definition sample_format : Formatter :=
  λ template args, fill_fields template (sample_str <$> args).

(** How deep lists and tuples are nested in an object. *)
Fixpoint nesting (o : pyobj) : nat :=
  match o with
  | PyList l | PyTuple l => S (foldr (λ x n, Nat.max (nesting x) n) 0%nat l)
  | _ => 0%nat
  end.

(** For the examples [format] raises on one ground: rendering an argument
    nested deeper than the interpreter's recursion limit of 1000. *)
Definition sample_format_failure : FormatFailure :=
  λ _ args,
    if existsb (λ o, (1000 <? nesting o)%nat) args
    then Some ("RuntimeError"%string,
               "maximum recursion depth exceeded while getting the repr of a list"%string)
    else None.

(** A list nested 1001 deep: [[[...[None]...]]]. *)
Definition deep_list : pyobj := Nat.iter 1001 (λ o, PyList [o]) PyNone.

(** A handler that may invoke foo.bar; [invoke_func] is given per example. *)
Definition sample_config : JSONRPCHandler.Config :=
  {| JSONRPCHandler.name := "sample"; JSONRPCHandler.service_whitelist := ["foo.bar"] |}.

Definition sample_handler (invoke_func : pyobj → pyobj → outcome pyobj)
  : JSONRPCHandler.t :=
  {| JSONRPCHandler.config := sample_config;
     JSONRPCHandler.invoke_func := invoke_func |}.

(** The request [{"jsonrpc": "2.0", "method": "foo.bar", "params": {"x": 1},
    "id": 7}] and the same request sent as a notification. *)
Definition sample_request : gmap string pyobj :=
  <["jsonrpc" := PyStr "2.0"]>
  (<["method" := PyStr "foo.bar"]>
  (<["params" := PyDict {["x" := PyInt 1]}]>
  {["id" := PyInt 7]})).

Definition sample_notification : gmap string pyobj :=
  <["jsonrpc" := PyStr "2.0"]>
  (<["method" := PyStr "foo.bar"]>
  {["params" := PyDict {["x" := PyInt 1]}]}).

(** Both with the version "1.0". *)
Definition request_v1 : gmap string pyobj :=
  <["jsonrpc" := PyStr "1.0"]> sample_request.

Definition notification_v1 : gmap string pyobj :=
  <["jsonrpc" := PyStr "1.0"]> sample_notification.

Definition sample_cid : pyobj := PyStr "cid-1".
Definition sample_raw : pyobj := PyStr "raw".

(** Backends for the examples: one returns 42, one returns 0, one fails with
    a ValueError, one is interrupted from the keyboard. *)
Definition returns_42 : pyobj → pyobj → outcome pyobj :=
  λ _ _, Return (PyInt 42).
Definition returns_0 : pyobj → pyobj → outcome pyobj :=
  λ _ _, Return (PyInt 0).
Definition raises_ValueError : pyobj → pyobj → outcome pyobj :=
  λ _ _, Raise (StandardError "ValueError" "boom").
Definition interrupted : pyobj → pyobj → outcome pyobj :=
  λ _ _, Raise (SystemExiting "KeyboardInterrupt").

(** A search configuration that asks for an ordering by username, and
    stand-ins for the WHERE builder and the query runner: the first returns
    an empty clause, the second returns the ordering it is given. *)
Definition sample_search_config : gmap string pyobj :=
  {["order_by" := PyList [PyDict {["username" := PyStr "asc"]}]]}.

Definition sample_get_where : SSOSearch.t → pyobj → outcome unit :=
  λ _ _, Return tt.
Definition sample_util_search : pyobj → unit → attr → unit → outcome attr :=
  λ _ _ order_by _, Return order_by.

(** Stand-ins for the search labels and the string methods: the labels are
    "and" and "or"; [strip] removes the white space at both ends and [upper]
    maps the letters a to z to A to Z. *)
Definition sample_search_const : SearchConst :=
  {| search_and_ := "and"; search_or_ := "or"; search_labels := {["and"; "or"]} |}.

Fixpoint sample_lstrip (s : string) : string :=
  match s with
  | String c s' => if Ascii.is_space c then sample_lstrip s' else s
  | EmptyString => EmptyString
  end.

Definition sample_upper_char (c : ascii) : ascii :=
  let n := nat_of_ascii c in
  if ((97 <=? n) && (n <=? 122))%nat then ascii_of_nat (n - 32) else c.

Fixpoint sample_upper (s : string) : string :=
  match s with
  | String c s' => String (sample_upper_char c) (sample_upper s')
  | EmptyString => EmptyString
  end.

Definition sample_unicode_ops : UnicodeOps :=
  {| py_strip := λ s, String.rev (sample_lstrip (String.rev (sample_lstrip s)));
     py_upper := sample_upper |}.

(** The configuration [sql_search] passes to [search], with the search by
    email enabled. *)
Definition sql_search_config : gmap string pyobj :=
  <["paginate" := PyBool true]>
  (<["page_size" := PyInt 2]>
  (<["email_search_enabled" := PyBool true]>
  (<["name_op" := PyStr "and"]>
  (<["name_exact" := PyBool false]>
  (<["name" := PyDict {["last_name" := PyStr "smith"]}]>
  {["sign_up_status" := PyStr "zzz"]}))))).

(** The sample request with a method outside the whitelist, and with a null
    id; a backend that raises a JSON-RPC exception of its own. *)
Definition unlisted_request : gmap string pyobj :=
  <["method" := PyStr "nope"]> sample_request.

Definition null_id_request : gmap string pyobj :=
  <["id" := PyNone]> sample_request.

Definition raises_MethodNotFound : pyobj → pyobj → outcome pyobj :=
  λ _ _, Raise (JSONRPCError MethodNotFound (PyStr "cid-of-backend")
                  "no such service").

(** Search configurations: a name filter alone, an email alone, a status and
    a null email, a user_id; and a query runner that returns the ordering
    and the clause it is given. *)
Definition name_only_config : gmap string pyobj :=
  {["name" := PyDict {["last_name" := PyStr " smith "]}]}.

Definition email_only_config : gmap string pyobj :=
  {["email" := PyStr "a@example.com"]}.

Definition status_config : gmap string pyobj :=
  <["sign_up_status" := PyStr "zzz"]> {["email" := PyNone]}.

Definition user_id_config : gmap string pyobj :=
  <["user_id" := PyStr "u1"]> {["name" := PyInt 3]}.

Definition echo_util_search
  : pyobj → unit → attr → sql_expr → outcome (attr * sql_expr) :=
  λ _ _ order_by where_, Return (order_by, where_).

(** ** Reading a search configuration *)

(** An entry of the name filter that [_get_where_name] accepts, and the raw
    criterion it makes of it: the key names one of the four name columns,
    the value is a string that is not empty once stripped, and the
    criterion holds the upper-case column and the stripped, upper-case
    value. *)
Definition valid_name_entry {uni : UnicodeOps} (entry : string * pyobj)
    (raw : string * string) : Prop :=
  ∃ value, SSOSearchWhere.name_columns !! entry.1 = Some raw.1 ∧
           entry.2 = PyStr value ∧
           py_strip value ≠ "" ∧
           raw.2 = py_upper (py_strip value).

(** The operator [_get_where_name] joins the name criteria with: the one of
    the label [const.search.and_] when name_op is falsy, the one of the
    label name_op when that is an allowed label. *)
Definition name_op_resolves {const : SearchConst} (name_op : pyobj)
    (f : list sql_expr → sql_expr) : Prop :=
  (truthy name_op = false ∧
   SSOSearchWhere.name_op_sa !! search_and_ = Some f) ∨
  (∃ label, name_op = PyStr label ∧ label ≠ "" ∧ label ∈ search_labels ∧
            SSOSearchWhere.name_op_sa !! label = Some f).

(** The clause of a raw name criterion: equality when name_exact is true,
    containment when it is false. *)
Definition name_clause (exact : bool) (raw : string * string) : sql_expr :=
  (if exact then sql_eq else sql_contains) raw.1 (PyStr raw.2).

(** A value a non-name criterion may have: None or a string. *)
Definition valid_non_name_value (value : pyobj) : Prop :=
  value = PyNone ∨ ∃ s, value = PyStr s.

(** The keys of the non-name criteria. *)
Definition non_name_keys : list string :=
  ["email"; "sign_up_status"; "approval_status"].

(** The search by email is asked for and not enabled. *)
Definition email_lookup_refused (d : gmap string pyobj) : Prop :=
  truthy (get_or d "email" PyNone) = true ∧
  truthy (get_or d "email_search_enabled" PyNone) = false.

(** Neither user_id nor username is given with a truthy value. *)
Definition no_unique_key (d : gmap string pyobj) : Prop :=
  truthy (get_or d "username" PyNone) = false ∧
  truthy (get_or d "user_id" PyNone) = false.

(** * Properties *)

Section json_rpc.
Context {fmt : Formatter} {ff : FormatFailure}.
Import JSONRPCHandler.

Implicit Types (self : JSONRPCHandler.t) (d : gmap string pyobj).
Implicit Types (cid message orig_message item v r : pyobj) (e : pyexc).

Lemma field_error_envelope id cid code msg :
  field (error_envelope id cid code msg) "jsonrpc" = Some (PyStr "2.0") ∧
  field (error_envelope id cid code msg) "id" = Some id ∧
  field (error_envelope id cid code msg) "result" = None ∧
  error_field (error_envelope id cid code msg) "code" = Some (PyInt code) ∧
  error_field (error_envelope id cid code msg) "message" = Some (PyStr msg) ∧
  error_cid (error_envelope id cid code msg) = Some cid.
Proof. repeat split; reflexivity. Qed.

Lemma error_envelope_is_error id cid code msg :
  is_error_envelope (error_envelope id cid code msg).
Proof.
  destruct (field_error_envelope id cid code msg) as (Hj & Hi & Hr & Hc & Hm & Hd).
  unfold is_error_envelope. rewrite Hj, Hi, Hr, Hc, Hm, Hd. eauto 10.
Qed.

Lemma field_success_envelope id v :
  field (success_envelope id v) "jsonrpc" = Some (PyStr "2.0") ∧
  field (success_envelope id v) "id" = Some id ∧
  field (success_envelope id v) "result" = Some v ∧
  field (success_envelope id v) "error" = None.
Proof. repeat split; reflexivity. Qed.

(** Serialising a response whose result is falsy needs its error. *)
Lemma to_dict_falsy (out : ItemResponse.t) :
  truthy (ItemResponse.result out) = false →
  ItemResponse.to_dict out =
    match ItemResponse.error out with
    | Some err => Return (PyDict (<["error" := ErrorCtx.to_dict err]>
        (<["jsonrpc" := PyStr json_rpc_version_supported]>
           {["id" := ItemResponse.id out]})))
    | None => Raise (StandardError "AttributeError"
                       "'NoneType' object has no attribute 'to_dict'")
    end.
Proof.
  intros Hres. unfold ItemResponse.to_dict, ItemResponse.error_to_dict.
  rewrite Hres. by destruct (ItemResponse.error out).
Qed.

Lemma to_dict_truthy (out : ItemResponse.t) :
  truthy (ItemResponse.result out) = true →
  ItemResponse.to_dict out =
    Return (success_envelope (ItemResponse.id out) (ItemResponse.result out)).
Proof. intros Hres. unfold ItemResponse.to_dict. by rewrite Hres. Qed.

(** The handler on a response object that holds no truthy result. *)
Lemma except_block_falsy cid e (out : ItemResponse.t) :
  truthy (ItemResponse.result out) = false →
  except_block cid e out =
    Return (error_envelope (ItemResponse.id out) cid (reported e).1 (reported e).2).
Proof.
  intros Hres. unfold except_block.
  replace (match e with
           | JSONRPCError cls _ _ => (code_of cls, exc_message e)
           | _ => (JSONRPCException_code, "Message could not be handled"%string)
           end) with (reported e) by by destruct e.
  destruct (reported e) as [c m]. by rewrite to_dict_falsy.
Qed.

(** A failed validation raises an [Exception]; when the message is
    formatted it is the JSON-RPC exception, reported with its class code
    and that message, and when the [format] call raises it is reported with
    the generic code and message. *)
Lemma validation_error_Exception cls cid template args :
  isinstance_Exception (validation_error cls cid template args) = true.
Proof. unfold validation_error. by destruct (format_failure _ _) as [[]|]. Qed.

Lemma validation_error_formatted cls cid template args :
  format_failure template args = None →
  reported (validation_error cls cid template args) =
    (code_of cls, str_format template args).
Proof. unfold validation_error. by intros ->. Qed.

Lemma validation_error_failed cls cid template args failure :
  format_failure template args = Some failure →
  reported (validation_error cls cid template args) =
    (JSONRPCException_code, "Message could not be handled"%string).
Proof. unfold validation_error. intros ->. by destruct failure. Qed.

Lemma validation_error_code cls cid template args :
  (reported (validation_error cls cid template args)).1 = code_of cls ∨
  (reported (validation_error cls cid template args)).1 = JSONRPCException_code.
Proof.
  unfold validation_error. destruct (format_failure _ _) as [[]|]; [by right|by left].
Qed.

(** What the [try] block does on a request object. *)
Lemma try_block_dict self cid d orig_message :
  try_block self cid (PyDict d) orig_message ItemResponse.__init__ =
    let jsonrpc := get_or d "jsonrpc" PyNone in
    let id := get_or d "id" NotGiven in
    let method := get_or d "method" PyNone in
    let params := get_or d "params" PyNone in
    let out := ItemResponse.set_id id ItemResponse.__init__ in
    if negb (py_eq_str jsonrpc json_rpc_version_supported) then
      (Raise (validation_error InvalidRequest cid
                "Unsupported JSON-RPC version `{}` in `{}`"
                [jsonrpc; orig_message]), out)
    else if negb (can_handle self method) then
      (Raise (validation_error MethodNotFound cid
                "Method not supported `{}` in `{}`"
                [method; orig_message]), out)
    else
      match invoke_func self method params with
      | Raise e => (Raise e, out)
      | Return v =>
          let out := ItemResponse.set_result v out in
          if negb (is_NotGiven id) then (ItemResponse.to_dict out, out)
          else (Return PyNone, out)
      end.
Proof.
  unfold try_block, JSONRPCItem.from_dict, py_get, get_or; cbn.
  unfold mbind, Try_bind, call, raise, assign, read, mret, Try_ret; cbn.
  unfold py_format, validation_error.
  destruct (negb (py_eq_str _ json_rpc_version_supported));
    [by destruct (format_failure _ _) as [[]|]|].
  destruct (negb (can_handle self _));
    [by destruct (format_failure _ _) as [[]|]|].
  destruct (invoke_func self _ _) as [v|e]; [|done].
  cbn. by destruct (negb (is_NotGiven _)).
Qed.

(** A message that is no dict has no [get]: the [try] block raises before
    it assigns anything to the response object. *)
Lemma try_block_not_dict self cid message orig_message :
  (∀ d, message ≠ PyDict d) →
  try_block self cid message orig_message ItemResponse.__init__ =
    (Raise (StandardError "AttributeError"
              ("'" +:+ type_name message +:+ "' object has no attribute 'get'")),
     ItemResponse.__init__).
Proof.
  intros Hnd. unfold try_block, JSONRPCItem.from_dict, py_get.
  destruct message; try done. by destruct (Hnd d).
Qed.

(** Whenever the [try] block raises, the response object holds no truthy
    result, and its identifier is None or what the request gave. *)
Lemma try_block_raises self cid message orig_message e (out : ItemResponse.t) :
  try_block self cid message orig_message ItemResponse.__init__ = (Raise e, out) →
  truthy (ItemResponse.result out) = false ∧
  ItemResponse.id out =
    match message with PyDict d => get_or d "id" NotGiven | _ => PyNone end.
Proof.
  destruct message as [| | | | | | |d|];
    try (rewrite try_block_not_dict by done; intros [= <- <-]; done).
  rewrite try_block_dict; cbn zeta.
  destruct (negb (py_eq_str _ _)); [by intros [= <- <-]|].
  destruct (negb (can_handle _ _)); [by intros [= <- <-]|].
  destruct (invoke_func _ _ _) as [v|e']; [|by intros [= <- <-]].
  destruct (negb (is_NotGiven _)); [|done].
  destruct (truthy v) eqn:Hv.
  - by rewrite to_dict_truthy.
  - rewrite to_dict_falsy by done. cbn. by intros [= <- <-].
Qed.

(** The three ways a call of [_handle_one_item] ends. *)
Lemma _handle_one_item_cases self cid message orig_message :
  match try_block self cid message orig_message ItemResponse.__init__ with
  | (Return r, _) => _handle_one_item self cid message orig_message = Return r
  | (Raise e, out) =>
      if isinstance_Exception e
      then _handle_one_item self cid message orig_message =
             Return (error_envelope (ItemResponse.id out) cid
                                    (reported e).1 (reported e).2)
      else _handle_one_item self cid message orig_message = Raise e
  end.
Proof.
  unfold _handle_one_item.
  destruct (try_block _ _ _ _ _) as [[r|e] out] eqn:Htry; [done|].
  destruct (isinstance_Exception e); [|done].
  apply except_block_falsy. by eapply try_block_raises.
Qed.

(** [_handle_one_item] on a request object, branch by branch. *)
Lemma _handle_one_item_dict self cid d orig_message :
  _handle_one_item self cid (PyDict d) orig_message =
    let jsonrpc := get_or d "jsonrpc" PyNone in
    let id := get_or d "id" NotGiven in
    let method := get_or d "method" PyNone in
    let params := get_or d "params" PyNone in
    if negb (py_eq_str jsonrpc json_rpc_version_supported) then
      let e := validation_error InvalidRequest cid
                 "Unsupported JSON-RPC version `{}` in `{}`"
                 [jsonrpc; orig_message] in
      Return (error_envelope id cid (reported e).1 (reported e).2)
    else if negb (can_handle self method) then
      let e := validation_error MethodNotFound cid
                 "Method not supported `{}` in `{}`" [method; orig_message] in
      Return (error_envelope id cid (reported e).1 (reported e).2)
    else
      match invoke_func self method params with
      | Raise e =>
          if isinstance_Exception e
          then Return (error_envelope id cid (reported e).1 (reported e).2)
          else Raise e
      | Return v =>
          if is_NotGiven id then Return PyNone
          else if truthy v then Return (success_envelope id v)
          else Return (error_envelope id cid JSONRPCException_code
                                      "Message could not be handled")
      end.
Proof.
  pose proof (_handle_one_item_cases self cid (PyDict d) orig_message) as Hc.
  rewrite try_block_dict in Hc. cbn zeta in *.
  destruct (negb (py_eq_str _ _));
    [by rewrite validation_error_Exception in Hc|].
  destruct (negb (can_handle _ _));
    [by rewrite validation_error_Exception in Hc|].
  destruct (invoke_func _ _ _) as [v|e]; [|by destruct (isinstance_Exception e)].
  destruct (is_NotGiven _); [done|]. cbn [negb] in Hc.
  destruct (truthy v) eqn:Hv.
  - by rewrite to_dict_truthy in Hc.
  - by rewrite to_dict_falsy in Hc.
Qed.

(** [_handle_one_item] on a message that is no dict. *)
Lemma _handle_one_item_not_dict self cid message orig_message :
  (∀ d, message ≠ PyDict d) →
  _handle_one_item self cid message orig_message =
    Return (error_envelope PyNone cid JSONRPCException_code
                           "Message could not be handled").
Proof.
  intros Hnd.
  pose proof (_handle_one_item_cases self cid message orig_message) as Hc.
  by rewrite try_block_not_dict in Hc.
Qed.

(** A single message goes to [_handle_one_item]. *)
Lemma handle_single self cid message orig_message :
  (∀ l, message ≠ PyList l) →
  handle self (RequestContext.mk cid orig_message message) =
    _handle_one_item self cid message orig_message.
Proof. intros Hnl. unfold handle. cbn. destruct message; try done. by destruct (Hnl l). Qed.

Lemma version_mismatch d :
  d !! "jsonrpc" ≠ Some (PyStr "2.0") →
  negb (py_eq_str (get_or d "jsonrpc" PyNone) json_rpc_version_supported) = true.
Proof.
  intros Hne. unfold get_or. destruct (d !! "jsonrpc") as [[]|]; try done.
  cbn. apply negb_true_iff, String.eqb_neq. by intros ->.
Qed.

Lemma version_match d :
  d !! "jsonrpc" = Some (PyStr "2.0") →
  negb (py_eq_str (get_or d "jsonrpc" PyNone) json_rpc_version_supported) = false.
Proof. intros Heq. unfold get_or. by rewrite Heq. Qed.

Lemma field_id_error_envelope id cid code msg :
  field (error_envelope id cid code msg) "id" = Some id.
Proof. reflexivity. Qed.

Lemma error_code_error_envelope id cid code msg :
  error_field (error_envelope id cid code msg) "code" = Some (PyInt code).
Proof. reflexivity. Qed.

Lemma success_envelope_is_success id v :
  is_success_envelope (success_envelope id v).
Proof.
  destruct (field_success_envelope id v) as (Hj & Hi & Hr & He).
  unfold is_success_envelope. rewrite Hj, Hi, Hr, He. eauto.
Qed.


(** C6, amended. A request object whose jsonrpc entry is not the string
    "2.0" (or is missing) is answered with an error envelope, by
    [_handle_one_item] and by [handle]; the envelope is the same whatever
    the whitelist holds and whatever the backend would do, as neither is
    consulted.  Its code is -32600 when the message of the InvalidRequest
    is formatted, and -32000 when formatting it raises. *)
Theorem unsupported_version_is_invalid_request self cid d orig_message :
  d !! "jsonrpc" ≠ Some (PyStr "2.0") →
  ∃ r, _handle_one_item self cid (PyDict d) orig_message = Return r ∧
       handle self (RequestContext.mk cid orig_message (PyDict d)) = Return r ∧
       is_error_envelope r ∧
       (format_failure "Unsupported JSON-RPC version `{}` in `{}`"
                       [get_or d "jsonrpc" PyNone; orig_message] = None →
        error_field r "code" = Some (PyInt (-32600))) ∧
       (∀ failure,
          format_failure "Unsupported JSON-RPC version `{}` in `{}`"
                         [get_or d "jsonrpc" PyNone; orig_message] = Some failure →
          error_field r "code" = Some (PyInt (-32000))) ∧
       ∀ self', _handle_one_item self' cid (PyDict d) orig_message = Return r.
Proof.
  intros Hver. eexists. rewrite handle_single by done.
  rewrite _handle_one_item_dict. cbn zeta. rewrite version_mismatch by done.
  split_and!; [done..|apply error_envelope_is_error| | |].
  - intros Hfmt. by rewrite validation_error_formatted.
  - intros failure Hfmt. by rewrite (validation_error_failed _ _ _ _ _ Hfmt).
  - intros self'. rewrite _handle_one_item_dict. cbn zeta.
    by rewrite version_mismatch.
Qed.

(** C7. For a single request object that carries an id, whatever [handle]
    returns is an envelope, of the success or of the error form, whose id
    is the id of the request; [handle] returns unless the backend raised
    something that is no [Exception], which then propagates. *)
Theorem response_id_echoes_request_id self cid d orig_message id :
  d !! "id" = Some id → id ≠ NotGiven →
  (∃ r, handle self (RequestContext.mk cid orig_message (PyDict d)) = Return r ∧
        field r "id" = Some id ∧
        (is_success_envelope r ∨ is_error_envelope r)) ∨
  (∃ e, handle self (RequestContext.mk cid orig_message (PyDict d)) = Raise e ∧
        isinstance_Exception e = false ∧
        invoke_func self (get_or d "method" PyNone) (get_or d "params" PyNone)
          = Raise e).
Proof.
  intros Hid Hgiven. rewrite handle_single by done.
  rewrite _handle_one_item_dict. cbn zeta.
  assert (get_or d "id" NotGiven = id) as -> by (unfold get_or; by rewrite Hid).
  assert (is_NotGiven id = false) as -> by by destruct id.
  destruct (negb (py_eq_str _ _)).
  { left. eexists. split_and!; [done..|]. right. apply error_envelope_is_error. }
  destruct (negb (can_handle _ _)).
  { left. eexists. split_and!; [done..|]. right. apply error_envelope_is_error. }
  destruct (invoke_func _ _ _) as [v|e].
  - left. destruct (truthy v); eexists; (split_and!; [done..|]).
    + left. apply success_envelope_is_success.
    + right. apply error_envelope_is_error.
  - destruct (isinstance_Exception e) eqn:He.
    + left. eexists. split_and!; [done..|]. right. apply error_envelope_is_error.
    + right. by exists e.
Qed.


(** C4. When the [try] block raises an [Exception] that is no
    [JSONRPCException], the answer is an error envelope with code -32000 and
    the message "Message could not be handled"; the handler builds the same
    envelope whatever the class and the text of that exception, so nothing
    of the text reaches the caller. *)
Theorem unrecognized_failure_is_generic self cid message orig_message cls text out :
  try_block self cid message orig_message ItemResponse.__init__
    = (Raise (StandardError cls text), out) →
  ∃ r, _handle_one_item self cid message orig_message = Return r ∧
       is_error_envelope r ∧
       error_field r "code" = Some (PyInt (-32000)) ∧
       error_field r "message" = Some (PyStr "Message could not be handled") ∧
       ∀ cls' text', except_block cid (StandardError cls' text') out = Return r.
Proof.
  intros Htry.
  pose proof (_handle_one_item_cases self cid message orig_message) as Hc.
  rewrite Htry in Hc. cbn in Hc. eexists. split; [exact Hc|].
  split_and!; [apply error_envelope_is_error|done..|].
  intros cls' text'. rewrite except_block_falsy; [done|].
  by eapply try_block_raises.
Qed.

(** C3, amended. When version and method pass and the invocation raises an
    [Exception], the answer is an error envelope whose code is the code of
    the exception's class if it is a [JSONRPCException], and -32000 if it is
    not; the code is -32603 exactly when the backend raised an
    [InternalError], or an instance of a class derived elsewhere whose code
    is -32603 as well. *)
Theorem backend_failure_code self cid d orig_message e :
  d !! "jsonrpc" = Some (PyStr "2.0") →
  can_handle self (get_or d "method" PyNone) = true →
  invoke_func self (get_or d "method" PyNone) (get_or d "params" PyNone)
    = Raise e →
  isinstance_Exception e = true →
  ∃ r, _handle_one_item self cid (PyDict d) orig_message = Return r ∧
       is_error_envelope r ∧
       (isinstance_JSONRPCException e = false →
          error_field r "code" = Some (PyInt (-32000))) ∧
       (error_field r "code" = Some (PyInt (-32603)) ↔
          ∃ cls cid' msg, e = JSONRPCError cls cid' msg ∧
            (cls = InternalError ∨ ∃ name, cls = JSONRPCSubclass name (-32603))).
Proof.
  intros Hver Hcan Hinv Hexc. eexists. rewrite _handle_one_item_dict. cbn zeta.
  rewrite version_match, Hcan, Hinv, Hexc by done. cbn.
  split_and!; [done|apply error_envelope_is_error|..].
  - by destruct e.
  - rewrite error_code_error_envelope. split.
    + destruct e as [[| | | | |name code] cid' msg| |]; try done.
      * intros _. exists InternalError, cid', msg. eauto.
      * cbn. intros [= ->]. exists (JSONRPCSubclass name (-32603)), cid', msg.
        eauto.
    + by intros (cls & cid' & msg & -> & [->|[name ->]]).
Qed.

(** C9, amended. When version and method pass and the invocation returns a
    falsy value, serialising the response raises, as it holds no error yet;
    a request that carries an id is then answered with an error envelope of
    code -32000 and no result, and a notification is answered with None. *)
Theorem falsy_result_outcome self cid d orig_message v :
  d !! "jsonrpc" = Some (PyStr "2.0") →
  can_handle self (get_or d "method" PyNone) = true →
  invoke_func self (get_or d "method" PyNone) (get_or d "params" PyNone)
    = Return v →
  truthy v = false →
  (∃ e, ItemResponse.to_dict
          (ItemResponse.set_result v
             (ItemResponse.set_id (get_or d "id" NotGiven) ItemResponse.__init__))
        = Raise e ∧ isinstance_JSONRPCException e = false) ∧
  (∀ id, d !! "id" = Some id → id ≠ NotGiven →
     ∃ r, _handle_one_item self cid (PyDict d) orig_message = Return r ∧
          is_error_envelope r ∧
          error_field r "code" = Some (PyInt (-32000)) ∧
          field r "id" = Some id) ∧
  (d !! "id" = None →
     _handle_one_item self cid (PyDict d) orig_message = Return PyNone).
Proof.
  intros Hver Hcan Hinv Hv. split_and!.
  - rewrite to_dict_falsy by done. cbn. eauto.
  - intros id Hid Hgiven. eexists. rewrite _handle_one_item_dict. cbn zeta.
    rewrite version_match, Hcan, Hinv, Hv by done. cbn.
    assert (get_or d "id" NotGiven = id) as -> by (unfold get_or; by rewrite Hid).
    assert (is_NotGiven id = false) as -> by by destruct id.
    split_and!; [done| |done..]. apply error_envelope_is_error.
  - intros Hid. rewrite _handle_one_item_dict. cbn zeta.
    rewrite version_match, Hcan, Hinv by done. cbn.
    unfold get_or. by rewrite Hid.
Qed.

(** An exception the [try] block raises is an [Exception] unless the
    backend raised it. *)
Lemma try_block_raise_source self cid message orig_message e out :
  try_block self cid message orig_message ItemResponse.__init__ = (Raise e, out) →
  isinstance_Exception e = true ∨
  ∃ method params, invoke_func self method params = Raise e.
Proof.
  destruct message as [| | | | | | |d|];
    try (rewrite try_block_not_dict by done; intros [= <- <-]; by left).
  rewrite try_block_dict; cbn zeta.
  destruct (negb (py_eq_str _ _));
    [intros [= <- <-]; left; apply validation_error_Exception|].
  destruct (negb (can_handle _ _));
    [intros [= <- <-]; left; apply validation_error_Exception|].
  destruct (invoke_func _ _ _) as [v|e'] eqn:Hinv; [|intros [= <- <-]; eauto].
  destruct (negb (is_NotGiven _)); [|done].
  destruct (truthy v) eqn:Hv.
  - by rewrite to_dict_truthy.
  - rewrite to_dict_falsy by done. cbn. intros [= <- <-]. by left.
Qed.

(** With a backend that raises only [Exception]s every item gets an answer. *)
Lemma _handle_one_item_returns self cid message orig_message :
  raises_only_Exception (invoke_func self) →
  ∃ r, _handle_one_item self cid message orig_message = Return r.
Proof.
  intros Hinv.
  pose proof (_handle_one_item_cases self cid message orig_message) as Hc.
  destruct (try_block _ _ _ _ _) as [[r|e] out] eqn:Htry; [eauto|].
  destruct (try_block_raise_source _ _ _ _ _ _ Htry) as [He|(m & p & He)].
  - rewrite He in Hc. eauto.
  - rewrite (Hinv _ _ _ He) in Hc. eauto.
Qed.

(** The loop of [handle_list] returns exactly when every item gets an answer,
    and then it has appended the answers in the order of the items. *)
Lemma handle_list_loop_spec self ctx items out res :
  handle_list_loop self ctx items out = Return res ↔
  ∃ entries, res = out ++ entries ∧
    Forall2 (λ item r, _handle_one_item self (RequestContext.cid ctx) item
                         (RequestContext.orig_message ctx) = Return r)
            items entries.
Proof.
  revert out. induction items as [|item items IH]; intros out; cbn.
  - split.
    + intros [= <-]. exists []. by rewrite app_nil_r.
    + intros (entries & -> & Hall). apply Forall2_nil_inv_l in Hall as ->.
      by rewrite app_nil_r.
  - destruct (_handle_one_item self _ item _) as [r|e] eqn:Hitem; cbn.
    + rewrite IH. split.
      * intros (entries & -> & Hall). exists (r :: entries).
        split; [by rewrite <-app_assoc|]. by constructor.
      * intros (entries & -> & Hall).
        apply Forall2_cons_inv_l in Hall as (r' & entries' & Hr & Hall & ->).
        assert (r' = r) as -> by congruence.
        exists entries'. split; [by rewrite <-app_assoc|done].
    + split; [done|]. intros (entries & _ & Hall).
      apply Forall2_cons_inv_l in Hall as (r' & entries' & Hr & _ & _).
      congruence.
Qed.

Lemma handle_list_loop_returns self ctx items out :
  raises_only_Exception (invoke_func self) →
  ∃ res, handle_list_loop self ctx items out = Return res.
Proof.
  intros Hinv. revert out. induction items as [|item items IH]; intros out; cbn.
  - eauto.
  - destruct (_handle_one_item_returns self (RequestContext.cid ctx) item
                (RequestContext.orig_message ctx) Hinv) as [r ->]. cbn. apply IH.
Qed.

(** A batch is answered with the list of the answers of its items. *)
Lemma handle_batch self cid orig_message items r :
  handle self (RequestContext.mk cid orig_message (PyList items)) = Return r ↔
  ∃ entries, r = PyList entries ∧
    Forall2 (λ item r, _handle_one_item self cid item orig_message = Return r)
            items entries.
Proof.
  unfold handle, handle_list. cbn.
  destruct (handle_list_loop _ _ _ _) as [res|e] eqn:Hloop; cbn.
  - apply handle_list_loop_spec in Hloop as (entries & -> & Hall). cbn in *.
    split.
    + intros [= <-]. eauto.
    + intros (entries' & -> & Hall'). f_equal. f_equal.
      revert entries' Hall'. induction Hall as [|item r items entries Hr _ IH];
        intros entries' Hall'.
      * by apply Forall2_nil_inv_l in Hall' as ->.
      * apply Forall2_cons_inv_l in Hall' as (r' & entries'' & Hr' & Hall' & ->).
        f_equal; [congruence|by apply IH].
  - split; [done|]. intros (entries & -> & Hall).
    assert (handle_list_loop self (RequestContext.mk cid orig_message (PyList items))
              items [] = Return ([] ++ entries)) as Hret
      by (apply handle_list_loop_spec; eauto).
    congruence.
Qed.

(** With a backend that raises only [Exception]s a batch is answered with a
    list. *)
Lemma handle_batch_returns self cid orig_message items :
  raises_only_Exception (invoke_func self) →
  ∃ out, handle self (RequestContext.mk cid orig_message (PyList items))
           = Return (PyList out).
Proof.
  intros Hinv. unfold handle, handle_list. cbn.
  destruct (handle_list_loop_returns self
              (RequestContext.mk cid orig_message (PyList items)) items [] Hinv)
    as [res ->].
  cbn. eauto.
Qed.

(** A notification that is carried out is answered with None. *)
Lemma notification_succeeds_None self cid d orig_message :
  notification_succeeds self d →
  _handle_one_item self cid (PyDict d) orig_message = Return PyNone.
Proof.
  intros (Hid & Hver & Hcan & v & Hinv). rewrite _handle_one_item_dict. cbn zeta.
  rewrite version_match, Hcan, Hinv by done. cbn. unfold get_or. by rewrite Hid.
Qed.

(** C2, amended. With a backend that returns or raises instances of
    [Exception], [_handle_one_item] and [handle] return on every input; and
    whenever the [try] block raised, what [_handle_one_item] returns is the
    error envelope that carries the correlation id and the code and message
    reported for that exception. *)
Theorem no_Exception_escapes self cid message orig_message ctx :
  raises_only_Exception (invoke_func self) →
  (∃ r, _handle_one_item self cid message orig_message = Return r ∧
     ∀ e out,
       try_block self cid message orig_message ItemResponse.__init__
         = (Raise e, out) →
       is_error_envelope r ∧
       error_cid r = Some cid ∧
       error_field r "code" = Some (PyInt (reported e).1) ∧
       error_field r "message" = Some (PyStr (reported e).2)) ∧
  (∃ r, handle self ctx = Return r).
Proof.
  intros Hinv. split.
  - pose proof (_handle_one_item_cases self cid message orig_message) as Hc.
    destruct (try_block _ _ _ _ _) as [[r|e] out] eqn:Htry.
    { exists r. split; [done|]. intros e out' [=]. }
    assert (isinstance_Exception e = true) as He.
    { destruct (try_block_raise_source _ _ _ _ _ _ Htry) as [He|(m & p & He)];
        [done|by eapply Hinv]. }
    rewrite He in Hc. eexists. split; [exact Hc|].
    intros e' out' [= <- <-]. split; [apply error_envelope_is_error|done].
  - unfold handle.
    assert (∃ r, handle_one_item self ctx = Return r) as Hone
      by by apply _handle_one_item_returns.
    destruct (RequestContext.message ctx) as [| | | | |items| | |] eqn:Hmsg;
      try done.
    unfold handle_list. rewrite Hmsg. cbn.
    destruct (handle_list_loop_returns self ctx items [] Hinv) as [res ->].
    cbn. eauto.
Qed.

(** C1, amended. With a backend that returns or raises instances of
    [Exception], a batch is answered with a list that has one entry per item,
    in the order of the items; the entry at a position is what
    [_handle_one_item] returns for the item at that position, taken alone:
    None for a notification that is carried out, an envelope otherwise; and
    replacing one item of the batch leaves the entries at all other
    positions as they were. *)
Theorem batch_entries_aligned self cid orig_message items :
  raises_only_Exception (invoke_func self) →
  ∃ out,
    handle self (RequestContext.mk cid orig_message (PyList items))
      = Return (PyList out) ∧
    length out = length items ∧
    (∀ i item, items !! i = Some item →
       ∃ r, out !! i = Some r ∧
            _handle_one_item self cid item orig_message = Return r) ∧
    (∀ i d, items !! i = Some (PyDict d) → notification_succeeds self d →
       out !! i = Some PyNone) ∧
    (∀ j item' out',
       handle self (RequestContext.mk cid orig_message (PyList (<[j := item']> items)))
         = Return (PyList out') →
       ∀ i, i ≠ j → out' !! i = out !! i).
Proof.
  intros Hinv.
  destruct (handle_batch_returns self cid orig_message items Hinv) as [out Hout].
  exists out. split; [done|].
  apply handle_batch in Hout as (entries & [= <-] & Hall).
  assert (∀ i item, items !! i = Some item →
            ∃ r, out !! i = Some r ∧
                 _handle_one_item self cid item orig_message = Return r) as Hlook.
  { intros i item Hi. by apply (Forall2_lookup_l _ _ _ _ _ Hall Hi). }
  split_and!.
  - symmetry. by eapply Forall2_length.
  - done.
  - intros i d Hi Hnote. destruct (Hlook i _ Hi) as (r & Hr & Hitem).
    rewrite notification_succeeds_None in Hitem by done. congruence.
  - intros j item' out' Hout' i Hij.
    apply handle_batch in Hout' as (entries' & [= <-] & Hall').
    destruct (items !! i) as [item|] eqn:Hi.
    + destruct (Hlook i item Hi) as (r & -> & Hr).
      assert (<[j := item']> items !! i = Some item) as Hi'
        by by rewrite list_lookup_insert_ne.
      destruct (Forall2_lookup_l _ _ _ _ _ Hall' Hi') as (r' & -> & Hr').
      congruence.
    + apply lookup_ge_None in Hi.
      rewrite !(proj2 (lookup_ge_None _ _)); [done|..].
      * by rewrite <-(Forall2_length _ _ _ Hall).
      * by rewrite <-(Forall2_length _ _ _ Hall'), length_insert.
Qed.

End json_rpc.

Section user_search.
Context {fmt : Formatter} {Session Where SearchResults : Type}.
Variable _get_where : SSOSearch.t → pyobj → outcome Where.
Variable util_search : pyobj → Session → attr → Where → outcome SearchResults.

Implicit Types (item order_by config : pyobj) (d : gmap string pyobj).

(** [OrderBy.__init__] assigns out_columns_allowed and never
    columns_allowed. *)
Lemma OrderBy_columns_allowed :
  OrderBy.__init__ !! "columns_allowed" = None ∧
  OrderBy.__init__ !! "out_columns_allowed" =
    Some (ASet {["display_name"; "username"; "sign_up_time"; "user_id"]}).
Proof. split; reflexivity. Qed.

Lemma getattr_columns_allowed :
  getattr "OrderBy" OrderBy.__init__ "columns_allowed" =
    Raise (StandardError "AttributeError"
             "'OrderBy' object has no attribute 'columns_allowed'").
Proof. reflexivity. Qed.

Lemma getattr_default :
  getattr "OrderBy" OrderBy.__init__ "default" =
    Return (AClauses [asc "display_name"; asc "username";
                      asc "sign_up_time"; asc "user_id"]).
Proof. reflexivity. Qed.

(** No round of the loop of [_get_order_by] gets through. *)
Lemma _get_order_by_item_raises item :
  ∃ e, SSOSearch._get_order_by_item SSOSearch.__init__ item = Raise e.
Proof.
  unfold SSOSearch._get_order_by_item.
  destruct item as [| | | | | | |d|]; cbn; eauto.
  destruct (map_to_list d) as [|[column dir] [|kv items]]; cbn; eauto.
Qed.

Lemma _get_order_by_item_single column dir :
  SSOSearch._get_order_by_item SSOSearch.__init__ (PyDict {[column := dir]}) =
    Raise (StandardError "AttributeError"
             "'OrderBy' object has no attribute 'columns_allowed'").
Proof.
  unfold SSOSearch._get_order_by_item. cbn. by rewrite map_to_list_singleton.
Qed.

(** Whatever truthy value order_by has, [_get_order_by] raises on it. *)
Lemma _get_order_by_raises order_by :
  truthy order_by = true →
  ∃ e, SSOSearch._get_order_by SSOSearch.__init__ order_by = Raise e.
Proof.
  unfold SSOSearch._get_order_by.
  destruct order_by as [|b|n|x|s|l|l|d|]; cbn; eauto; try done.
  - destruct s as [|c s]; [done|]. cbn. eauto.
  - destruct l as [|item l]; [done|]. cbn.
    destruct (_get_order_by_item_raises item) as [e ->]. cbn. eauto.
  - destruct l as [|item l]; [done|]. cbn.
    destruct (_get_order_by_item_raises item) as [e ->]. cbn. eauto.
  - destruct (map_to_list d) as [|[k v] l] eqn:Hd.
    + apply map_to_list_empty_iff in Hd as ->. by rewrite map_size_empty.
    + cbn. eauto.
Qed.

(** C10. A configuration whose order_by is a non-empty list makes [search]
    raise: if the WHERE clause was built and the first entry of the list is
    a one-column dict, the exception is the AttributeError for the attribute
    columns_allowed, which [OrderBy] does not define (it defines
    out_columns_allowed).  Whenever [search] returns, order_by was absent or
    falsy and the query ran with the default ordering. *)
Theorem search_with_order_by_raises session d item items :
  d !! "order_by" = Some (PyList (item :: items)) →
  (∃ e, SSOSearch.search _get_where util_search SSOSearch.__init__ session
          (PyDict d) = Raise e) ∧
  (∀ w column dir,
     _get_where SSOSearch.__init__ (PyDict d) = Return w →
     item = PyDict {[column := dir]} →
     SSOSearch.search _get_where util_search SSOSearch.__init__ session
       (PyDict d) =
     Raise (StandardError "AttributeError"
              "'OrderBy' object has no attribute 'columns_allowed'")) ∧
  (OrderBy.__init__ !! "columns_allowed" = None ∧
   is_Some (OrderBy.__init__ !! "out_columns_allowed")) ∧
  (∀ config r,
     SSOSearch.search _get_where util_search SSOSearch.__init__ session config
       = Return r →
     ∃ d' w, config = PyDict d' ∧
       truthy (get_or d' "order_by" PyNone) = false ∧
       _get_where SSOSearch.__init__ config = Return w ∧
       util_search config session
         (AClauses [asc "display_name"; asc "username";
                    asc "sign_up_time"; asc "user_id"]) w = Return r).
Proof.
  intros Horder. split_and!.
  - unfold SSOSearch.search.
    destruct (_get_where _ _) as [w|e]; cbn; [|eauto].
    rewrite Horder. cbn -[SSOSearch._get_order_by].
    destruct (_get_order_by_raises (PyList (item :: items))) as [e ->]; [done|].
    cbn. eauto.
  - intros w column dir Hw ->. unfold SSOSearch.search. rewrite Hw. cbn.
    rewrite Horder. cbn -[SSOSearch._get_order_by_item].
    by rewrite _get_order_by_item_single.
  - apply OrderBy_columns_allowed.
  - eexists. apply OrderBy_columns_allowed.
  - intros config r. unfold SSOSearch.search.
    destruct (_get_where _ config) as [w|e] eqn:Hw; cbn; [|done].
    destruct config as [| | | | | | |d'|]; cbn; try done.
    fold (get_or d' "order_by" PyNone).
    destruct (truthy (get_or d' "order_by" PyNone)) eqn:Htruthy.
    + destruct (_get_order_by_raises _ Htruthy) as [e ->]. done.
    + rewrite getattr_default. cbn. intros Hr. by exists d', w.
Qed.

End user_search.

(** ** Further properties of the dispatcher *)

Section json_rpc_paths.
Context {fmt : Formatter} {ff : FormatFailure}.
Import JSONRPCHandler.

Implicit Types (self : JSONRPCHandler.t) (d : gmap string pyobj).
Implicit Types (cid message orig_message item v r : pyobj) (e : pyexc).

Lemma version_ok_iff d :
  negb (py_eq_str (get_or d "jsonrpc" PyNone) json_rpc_version_supported) = false ↔
  d !! "jsonrpc" = Some (PyStr "2.0").
Proof.
  split; [|apply version_match].
  unfold get_or. destruct (d !! "jsonrpc") as [[]|]; try done.
  cbn. rewrite negb_false_iff, String.eqb_eq. by intros ->.
Qed.

(** [can_handle] accepts exactly the strings of the whitelist. *)
Lemma can_handle_spec self method :
  can_handle self method = true ↔
  ∃ s, method = PyStr s ∧ s ∈ service_whitelist (config self).
Proof.
  unfold can_handle. rewrite existsb_exists. split.
  - intros (s & Hin & Heq). destruct method; try done.
    apply String.eqb_eq in Heq as ->. exists s. by rewrite list_elem_of_In.
  - intros (s & -> & Hin). exists s. split; [by apply list_elem_of_In|].
    apply String.eqb_refl.
Qed.

(** What [_handle_one_item] returns is None, a success envelope with a
    truthy result, or an error envelope that carries the correlation id and
    one of the codes -32600, -32601 and -32000 of the dispatcher, or the
    code and the message of a JSON-RPC exception the backend raised. *)
Lemma _handle_one_item_shape self cid message orig_message r :
  _handle_one_item self cid message orig_message = Return r →
  r = PyNone ∨
  (∃ id v, r = success_envelope id v ∧ truthy v = true) ∨
  (∃ id code msg, r = error_envelope id cid code msg ∧
     (code = -32600 ∨ code = -32601 ∨ code = -32000 ∨
      ∃ d cls cid', message = PyDict d ∧
        invoke_func self (get_or d "method" PyNone) (get_or d "params" PyNone)
          = Raise (JSONRPCError cls cid' msg) ∧
        code = code_of cls)).
Proof.
  destruct message as [| | | | | | |d|];
    try (rewrite _handle_one_item_not_dict by done; intros [= <-];
         right; right; do 3 eexists; split; [done|]; by do 2 right; left).
  rewrite _handle_one_item_dict. cbn zeta.
  destruct (negb (py_eq_str _ _)).
  { intros [= <-]. right; right. do 3 eexists. split; [done|].
    destruct (validation_error_code InvalidRequest cid
                "Unsupported JSON-RPC version `{}` in `{}`"
                [get_or d "jsonrpc" PyNone; orig_message]) as [->| ->];
      [by left|by do 2 right; left]. }
  destruct (negb (can_handle _ _)).
  { intros [= <-]. right; right. do 3 eexists. split; [done|].
    destruct (validation_error_code MethodNotFound cid
                "Method not supported `{}` in `{}`"
                [get_or d "method" PyNone; orig_message]) as [->| ->];
      [by right; left|by do 2 right; left]. }
  destruct (invoke_func _ _ _) as [v|e] eqn:Hinv.
  - destruct (is_NotGiven _); [intros [= <-]; by left|].
    destruct (truthy v) eqn:Hv; intros [= <-].
    + right; left. eauto.
    + right; right. do 3 eexists. split; [done|]. by do 2 right; left.
  - destruct (isinstance_Exception e) eqn:He; [|done]. intros [= <-].
    right; right. do 3 eexists. split; [done|].
    destruct e as [cls cid' msg|cls text|cls]; cbn; [|by do 2 right; left|done].
    do 3 right. by exists d, cls, cid'.
Qed.

(** X1. A request with the supported version whose method is not a string of
    the whitelist (a missing method included) is answered with an error
    envelope that echoes the id: the one of code -32601, with the message
    that names the method, when that message is formatted; the one of code
    -32000 when formatting it raises.  The backend is not invoked: the
    answer is the same with any other backend. *)
Theorem unlisted_method_is_method_not_found self cid d orig_message :
  d !! "jsonrpc" = Some (PyStr "2.0") →
  (∀ s, get_or d "method" PyNone = PyStr s → s ∉ service_whitelist (config self)) →
  (format_failure "Method not supported `{}` in `{}`"
                  [get_or d "method" PyNone; orig_message] = None →
   _handle_one_item self cid (PyDict d) orig_message =
     Return (error_envelope (get_or d "id" NotGiven) cid (-32601)
               (str_format "Method not supported `{}` in `{}`"
                           [get_or d "method" PyNone; orig_message]))) ∧
  (∀ failure,
     format_failure "Method not supported `{}` in `{}`"
                    [get_or d "method" PyNone; orig_message] = Some failure →
     _handle_one_item self cid (PyDict d) orig_message =
       Return (error_envelope (get_or d "id" NotGiven) cid (-32000)
                 "Message could not be handled")) ∧
  ∀ invoke_func',
    _handle_one_item {| config := config self; invoke_func := invoke_func' |}
      cid (PyDict d) orig_message =
    _handle_one_item self cid (PyDict d) orig_message.
Proof.
  intros Hver Hmethod.
  assert (∀ self', config self' = config self →
            can_handle self' (get_or d "method" PyNone) = false) as Hcan.
  { intros self' Hcfg. apply not_true_is_false. intros Hcan.
    apply can_handle_spec in Hcan as (s & Hs & Hin). rewrite Hcfg in Hin.
    by eapply Hmethod. }
  assert (∀ self', config self' = config self →
            _handle_one_item self' cid (PyDict d) orig_message =
            let e := validation_error MethodNotFound cid
                       "Method not supported `{}` in `{}`"
                       [get_or d "method" PyNone; orig_message] in
            Return (error_envelope (get_or d "id" NotGiven) cid
                      (reported e).1 (reported e).2)) as Hans.
  { intros self' Hcfg. rewrite _handle_one_item_dict. cbn zeta.
    by rewrite version_match, Hcan. }
  split_and!.
  - intros Hfmt. rewrite Hans by done. cbn zeta.
    by rewrite validation_error_formatted.
  - intros failure Hfmt. rewrite Hans by done. cbn zeta.
    by rewrite (validation_error_failed _ _ _ _ _ Hfmt).
  - intros invoke_func'. by rewrite !Hans.
Qed.

(** X2. A request that carries an id (null included), has the supported
    version and a whitelisted method, and whose invocation returns a truthy
    value is answered with the success envelope of that id and that value. *)
Theorem truthy_result_is_success self cid d orig_message id v :
  d !! "id" = Some id → id ≠ NotGiven →
  d !! "jsonrpc" = Some (PyStr "2.0") →
  can_handle self (get_or d "method" PyNone) = true →
  invoke_func self (get_or d "method" PyNone) (get_or d "params" PyNone)
    = Return v →
  truthy v = true →
  ∃ r, _handle_one_item self cid (PyDict d) orig_message = Return r ∧
       field r "jsonrpc" = Some (PyStr "2.0") ∧
       field r "id" = Some id ∧
       field r "result" = Some v ∧
       field r "error" = None.
Proof.
  intros Hid Hgiven Hver Hcan Hinv Hv. eexists.
  rewrite _handle_one_item_dict. cbn zeta.
  rewrite version_match, Hcan, Hinv, Hv by done. cbn.
  assert (get_or d "id" NotGiven = id) as -> by (unfold get_or; by rewrite Hid).
  assert (is_NotGiven id = false) as -> by by destruct id.
  split; [done|]. apply field_success_envelope.
Qed.

(** X3. [_handle_one_item] returns None in one case only: the message is an
    object without a given id, its version is supported, its method is
    whitelisted and the invocation returns.  No failing item and no item
    with an id is passed over in silence. *)
Theorem None_only_for_notification self cid message orig_message :
  _handle_one_item self cid message orig_message = Return PyNone ↔
  ∃ d, message = PyDict d ∧
       is_NotGiven (get_or d "id" NotGiven) = true ∧
       d !! "jsonrpc" = Some (PyStr "2.0") ∧
       can_handle self (get_or d "method" PyNone) = true ∧
       ∃ v, invoke_func self (get_or d "method" PyNone)
                        (get_or d "params" PyNone) = Return v.
Proof.
  split.
  - destruct message as [| | | | | | |d|];
      try (by rewrite _handle_one_item_not_dict).
    rewrite _handle_one_item_dict. cbn zeta.
    destruct (negb (py_eq_str _ _)) eqn:Hver; [done|].
    destruct (negb (can_handle _ _)) eqn:Hcan; [done|].
    destruct (invoke_func _ _ _) as [v|e] eqn:Hinv.
    + destruct (is_NotGiven _) eqn:Hid; [|by destruct (truthy v)].
      intros _. exists d. split_and!; [done..| | |by exists v].
      * by apply version_ok_iff.
      * by apply negb_false_iff.
    + by destruct (isinstance_Exception e).
  - intros (d & -> & Hid & Hver & Hcan & v & Hinv).
    rewrite _handle_one_item_dict. cbn zeta.
    by rewrite version_match, Hcan, Hinv, Hid.
Qed.

(** X4. A single message that is neither an object nor a list (a string, a
    number, null) is answered with the error envelope of code -32000 and id
    None; handler and backend play no part in the answer. *)
Theorem non_object_message_is_generic_error self cid message orig_message :
  (∀ d, message ≠ PyDict d) → (∀ l, message ≠ PyList l) →
  handle self (RequestContext.mk cid orig_message message) =
    Return (error_envelope PyNone cid (-32000) "Message could not be handled") ∧
  ∀ self', handle self' (RequestContext.mk cid orig_message message) =
           handle self (RequestContext.mk cid orig_message message).
Proof.
  intros Hnd Hnl.
  assert (∀ self', handle self' (RequestContext.mk cid orig_message message) =
            Return (error_envelope PyNone cid (-32000)
                                   "Message could not be handled")) as Hans.
  { intros self'. rewrite handle_single by done.
    by rewrite _handle_one_item_not_dict. }
  split; [apply Hans|]. intros self'. by rewrite !Hans.
Qed.

(** X5. When the backend raises one of the JSON-RPC exceptions, the envelope
    carries the code of its class and its message, the id of the request,
    and the correlation id of the call, not the one the exception was made
    with. *)
Theorem backend_jsonrpc_error_is_copied self cid d orig_message cls cid' msg :
  d !! "jsonrpc" = Some (PyStr "2.0") →
  can_handle self (get_or d "method" PyNone) = true →
  invoke_func self (get_or d "method" PyNone) (get_or d "params" PyNone)
    = Raise (JSONRPCError cls cid' msg) →
  ∃ r, _handle_one_item self cid (PyDict d) orig_message = Return r ∧
       error_field r "code" = Some (PyInt (code_of cls)) ∧
       error_field r "message" = Some (PyStr msg) ∧
       error_cid r = Some cid ∧
       field r "id" = Some (get_or d "id" NotGiven) ∧
       field r "result" = None.
Proof.
  intros Hver Hcan Hinv. eexists. rewrite _handle_one_item_dict. cbn zeta.
  rewrite version_match, Hcan, Hinv by done. cbn.
  split; [done|].
  destruct (field_error_envelope (get_or d "id" NotGiven) cid (code_of cls) msg)
    as (_ & Hi & Hr & Hc & Hm & Hd).
  by rewrite Hi, Hr, Hc, Hm, Hd.
Qed.

(** X6. Every error code [_handle_one_item] reports is -32600, -32601 or
    -32000, or the code of a JSON-RPC exception that the backend raised for
    this request, whose message the envelope then carries; so with a
    backend whose JSON-RPC exceptions have codes between -32700 and -32000,
    as the classes of the module have, every reported code is in that
    range. *)
Theorem error_code_origin self cid message orig_message r c :
  _handle_one_item self cid message orig_message = Return r →
  error_field r "code" = Some c →
  (c = PyInt (-32600) ∨ c = PyInt (-32601) ∨ c = PyInt (-32000) ∨
   ∃ d cls cid' msg, message = PyDict d ∧
     invoke_func self (get_or d "method" PyNone) (get_or d "params" PyNone)
       = Raise (JSONRPCError cls cid' msg) ∧
     c = PyInt (code_of cls) ∧
     error_field r "message" = Some (PyStr msg)) ∧
  ((∀ method params cls cid' msg,
      invoke_func self method params = Raise (JSONRPCError cls cid' msg) →
      -32700 ≤ code_of cls ≤ -32000) →
   ∃ code, c = PyInt code ∧ -32700 ≤ code ≤ -32000).
Proof.
  intros Hr Hc.
  destruct (_handle_one_item_shape _ _ _ _ _ Hr)
    as [->|[(id & v & -> & _)|(id & code & msg & -> & Hcode)]]; [done..|].
  rewrite error_code_error_envelope in Hc. injection Hc as <-.
  destruct Hcode as [->|[->|[->|(d & cls & cid' & -> & Hinv & ->)]]].
  - split; [by left|]. intros _. eexists. split; [done|lia].
  - split; [by right; left|]. intros _. eexists. split; [done|lia].
  - split; [by do 2 right; left|]. intros _. eexists. split; [done|lia].
  - split.
    + do 3 right. by exists d, cls, cid', msg.
    + intros Hback. eexists. split; [done|]. by eapply Hback.
Qed.

(** X7. What [handle] returns for a single message is None or an object,
    never a list; for a batch it is a list whose entries are None or
    objects.  The transport can tell the two apart by the shape alone. *)
Theorem handle_result_shape self cid message orig_message r :
  handle self (RequestContext.mk cid orig_message message) = Return r →
  match message with
  | PyList items =>
      ∃ out, r = PyList out ∧ length out = length items ∧
             Forall (λ entry, entry = PyNone ∨ ∃ fields, entry = PyDict fields) out
  | _ => r = PyNone ∨ ∃ fields, r = PyDict fields
  end.
Proof.
  assert (∀ m r', _handle_one_item self cid m orig_message = Return r' →
            r' = PyNone ∨ ∃ fields, r' = PyDict fields) as Hone.
  { intros m r' Hr'.
    destruct (_handle_one_item_shape _ _ _ _ _ Hr')
      as [->|[(id & v & -> & _)|(id & code & msg & -> & _)]];
      [by left|right; by eexists..]. }
  destruct message as [| | | | |items| | |];
    try (rewrite handle_single by done; apply Hone).
  intros Hr. apply handle_batch in Hr as (out & -> & Hall).
  exists out. split_and!; [done|symmetry; by eapply Forall2_length|].
  induction Hall as [|m r' items out Hr' _ IH]; constructor; [|done].
  by eapply Hone.
Qed.

(** X8. The empty batch is answered with the empty list; and a batch made
    of two parts is answered with a list exactly when both parts are, with
    the two answers one after the other. *)
Theorem handle_batch_app self cid orig_message items1 items2 out :
  handle self (RequestContext.mk cid orig_message (PyList [])) = Return (PyList []) ∧
  (handle self (RequestContext.mk cid orig_message (PyList (items1 ++ items2)))
     = Return (PyList out) ↔
   ∃ out1 out2, out = out1 ++ out2 ∧
     handle self (RequestContext.mk cid orig_message (PyList items1))
       = Return (PyList out1) ∧
     handle self (RequestContext.mk cid orig_message (PyList items2))
       = Return (PyList out2)).
Proof.
  split; [done|]. rewrite handle_batch. split.
  - intros (entries & [= <-] & Hall).
    apply Forall2_app_inv_l in Hall as (out1 & out2 & Hall1 & Hall2 & ->).
    exists out1, out2. split; [done|]. rewrite !handle_batch.
    split; eexists; by split.
  - intros (out1 & out2 & -> & H1 & H2).
    apply handle_batch in H1 as (e1 & [= <-] & Hall1).
    apply handle_batch in H2 as (e2 & [= <-] & Hall2).
    eexists. split; [done|]. by apply Forall2_app.
Qed.

(** X9. A batch of one message that is not itself a list is answered with
    the one-element list of the answer the message gets when it is sent
    alone; a list inside a batch is not taken as a batch but answered as a
    message that is no object. *)
Theorem singleton_batch_is_single self cid message orig_message r :
  (∀ l, message ≠ PyList l) →
  (handle self (RequestContext.mk cid orig_message (PyList [message]))
     = Return (PyList [r]) ↔
   handle self (RequestContext.mk cid orig_message message) = Return r) ∧
  ∀ l, handle self (RequestContext.mk cid orig_message (PyList [PyList l])) =
       Return (PyList [error_envelope PyNone cid (-32000)
                                      "Message could not be handled"]).
Proof.
  intros Hnl. split.
  - rewrite handle_batch, handle_single by done. split.
    + intros (entries & [= <-] & Hall).
      apply Forall2_cons_1 in Hall as [Hr _]. done.
    + intros Hr. exists [r]. split; [done|]. by repeat constructor.
  - intros l. apply handle_batch. eexists. split; [done|].
    constructor; [by rewrite _handle_one_item_not_dict|constructor].
Qed.

End json_rpc_paths.

(** ** Properties of the WHERE clause *)

Section user_search_where.
Context {fmt : Formatter} {const : SearchConst} {uni : UnicodeOps}.
Import SSOSearchWhere.

Implicit Types (d name : gmap string pyobj) (config value : pyobj).

Lemma non_name_column_op_lookup k op :
  _non_name_column_op !! k = Some op ↔ k ∈ non_name_keys ∧ op = sql_eq k.
Proof.
  unfold _non_name_column_op, non_name_keys.
  rewrite !lookup_insert_Some, lookup_singleton_Some, !elem_of_cons, elem_of_nil.
  split.
  - intros [[<- <-]|[? [[<- <-]|[? [<- <-]]]]]; auto.
  - intros [[->|[->|[->|[]]]] ->]; auto 10.
Qed.

(** The loop of [_get_where_non_name] on values that are None or strings:
    one criterion per key that is given. *)
Lemma non_name_loop_spec d columns acc :
  (∀ k op v, (k, op) ∈ columns → d !! k = Some v → valid_non_name_value v) →
  non_name_loop (PyDict d) columns acc =
    Return (acc ++ omap (λ kop, kop.2 <$> d !! kop.1) columns).
Proof.
  revert acc. induction columns as [|[k op] columns IH]; intros acc Hvalid; cbn.
  - by rewrite app_nil_r.
  - destruct (d !! k) as [v|] eqn:Hk; cbn.
    + destruct (Hvalid k op v) as [->|[s ->]]; [by left|done|..];
        rewrite IH by (intros; eapply Hvalid; [by right|done]);
        by rewrite <-app_assoc.
    + apply IH. intros; eapply Hvalid; [by right|done].
Qed.


Lemma no_unique_key_shortcut d :
  no_unique_key d →
  _get_where (PyDict d) =
    (name_where ←
       (if bool_decide (is_Some (d !! "name")) then
          _get_where_name (get_or d "name" PyNone) (get_or d "name_exact" PyNone)
                          (get_or d "name_op" PyNone)
        else Return None);
     non_name_where ← _get_where_non_name (PyDict d);
     match name_where, non_name_where with
     | Some name_where, None => Return name_where
     | Some name_where, Some non_name_where =>
         Return (sql_and [name_where; non_name_where])
     | None, Some non_name_where => Return non_name_where
     | None, None =>
         Raise (StandardError "UnboundLocalError"
                  "local variable 'where' referenced before assignment")
     end).
Proof.
  intros [Hname Hid]. unfold _get_where. cbn. fold (get_or d "username" PyNone).
  fold (get_or d "user_id" PyNone). rewrite Hname, Hid. cbn.
  by destruct (bool_decide (is_Some (d !! "name"))).
Qed.

(** The two shortcuts of [_get_where]. *)
Lemma unique_key_where d :
  (truthy (get_or d "user_id" PyNone) = true →
   _get_where (PyDict d) = Return (sql_eq "user_id" (get_or d "user_id" PyNone))) ∧
  (truthy (get_or d "user_id" PyNone) = false →
   truthy (get_or d "username" PyNone) = true →
   _get_where (PyDict d) = Return (sql_eq "username" (get_or d "username" PyNone))).
Proof.
  unfold _get_where. cbn. fold (get_or d "username" PyNone).
  fold (get_or d "user_id" PyNone). split.
  - intros ->. by rewrite orb_true_r.
  - by intros -> ->.
Qed.

(** X10. A truthy user_id decides the WHERE clause alone, and a truthy
    username does when user_id is missing or falsy: the clause is the
    equality on that column, and the rest of the configuration is not
    looked at, valid or not; if both are given, user_id wins. *)
Theorem unique_key_decides_where d :
  (truthy (get_or d "user_id" PyNone) = true →
   _get_where (PyDict d) = Return (sql_eq "user_id" (get_or d "user_id" PyNone))) ∧
  (truthy (get_or d "user_id" PyNone) = false →
   truthy (get_or d "username" PyNone) = true →
   _get_where (PyDict d) = Return (sql_eq "username" (get_or d "username" PyNone))).
Proof.
  unfold _get_where. cbn. fold (get_or d "username" PyNone).
  fold (get_or d "user_id" PyNone). split.
  - intros ->. by rewrite orb_true_r.
  - by intros -> ->.
Qed.

(** With an operator that resolves, [_get_where_name] on a dict depends on
    the raw criteria of its first loop alone. *)
Lemma _get_where_name_resolved name name_exact name_op f raws :
  name_op_resolves name_op f →
  name_criteria_raw_loop (map_to_list name) [] = Return raws →
  _get_where_name (PyDict name) name_exact name_op =
    match raws with
    | [] => Return None
    | _ => name_criteria ← name_criteria_loop name_exact raws [];
           Return (Some (f name_criteria))
    end.
Proof.
  intros Hop Hraw. unfold _get_where_name. rewrite Hraw. cbn.
  destruct Hop as [[Hfalsy Hf]|(label & -> & Hne & Hin & Hf)].
  - rewrite Hfalsy. cbn. unfold name_op_sa_getitem. cbn. by rewrite Hf.
  - assert (truthy (PyStr label) = true) as ->.
    { cbn. apply negb_true_iff, String.eqb_neq. done. }
    cbn. unfold name_op_allowed. rewrite bool_decide_eq_true_2 by done. cbn.
    unfold name_op_sa_getitem. cbn. by rewrite Hf.
Qed.

Lemma omap_absent d (columns : list (string * (pyobj → sql_expr))) :
  (∀ kop, kop ∈ columns → d !! kop.1 = None) →
  omap (λ kop, kop.2 <$> d !! kop.1) columns = [].
Proof.
  induction columns as [|kop columns IH]; intros Habs; [done|]. cbn.
  rewrite (Habs kop) by by left. cbn. apply IH. intros; apply Habs; by right.
Qed.


Lemma _get_where_non_name_refused d :
  email_lookup_refused d →
  _get_where_non_name (PyDict d) =
    Raise (StandardError "ValueError" "Cannot look up users by email").
Proof.
  intros [Hemail Henabled]. unfold _get_where_non_name. cbn.
  fold (get_or d "email" PyNone).
  fold (get_or d "email_search_enabled" PyNone). by rewrite Hemail, Henabled.
Qed.

(** X12. When a truthy email is given and email_search_enabled is missing
    or falsy, [_get_where_non_name] refuses with a ValueError before it
    builds any criterion, whatever else the configuration holds; so does
    [_get_where] when no unique key and no name is given. *)
Theorem email_lookup_guard d :
  email_lookup_refused d →
  _get_where_non_name (PyDict d) =
    Raise (StandardError "ValueError" "Cannot look up users by email") ∧
  (no_unique_key d → d !! "name" = None →
   _get_where (PyDict d) =
     Raise (StandardError "ValueError" "Cannot look up users by email")).
Proof.
  intros Href. pose proof (_get_where_non_name_refused d Href) as Hnon.
  split; [done|]. intros Hkey Hname.
  rewrite no_unique_key_shortcut, Hnon, Hname by done.
  by rewrite bool_decide_eq_false_2 by by intros [? [=]].
Qed.

Lemma _get_where_non_name_allowed d :
  ¬ email_lookup_refused d →
  _get_where_non_name (PyDict d) =
    (non_name_criteria ←
       non_name_loop (PyDict d) (map_to_list _non_name_column_op) [];
     match non_name_criteria with
     | [] => Return None
     | _ => Return (Some (sql_and non_name_criteria))
     end).
Proof.
  intros Hok. unfold _get_where_non_name, email_lookup_refused in *. cbn.
  fold (get_or d "email" PyNone). fold (get_or d "email_search_enabled" PyNone).
  destruct (truthy (get_or d "email" PyNone)); [|done].
  destruct (truthy (get_or d "email_search_enabled" PyNone)); [done|].
  by destruct Hok.
Qed.

(** The keys of [_non_name_column_op], in some order, each with the
    equality on its column. *)
Lemma non_name_column_op_items :
  map_to_list _non_name_column_op ≡ₚ (λ k, (k, sql_eq k)) <$> non_name_keys.
Proof.
  unfold _non_name_column_op, non_name_keys.
  rewrite !map_to_list_insert, map_to_list_singleton by done. cbn.
  apply (reverse_Permutation
           [("email", sql_eq "email"); ("sign_up_status", sql_eq "sign_up_status");
            ("approval_status", sql_eq "approval_status")]).
Qed.

(** X13. When the search by email is not refused and every value given for
    email, sign_up_status and approval_status is None or a string,
    [_get_where_non_name] returns the conjunction of exactly one equality
    per key that is given, a key given as None included (the column is
    compared with None), and returns None when none of the keys is given:
    the criteria are, up to their order, the equalities of the given
    keys, each once. *)
Theorem non_name_criteria_built d :
  ¬ email_lookup_refused d →
  (∀ k v, k ∈ non_name_keys → d !! k = Some v → valid_non_name_value v) →
  ∃ criteria,
    _get_where_non_name (PyDict d) =
      Return (match criteria with [] => None | _ => Some (sql_and criteria) end) ∧
    criteria ≡ₚ omap (λ k, sql_eq k <$> d !! k) non_name_keys ∧
    (∀ c, c ∈ criteria ↔
          ∃ k v, k ∈ non_name_keys ∧ d !! k = Some v ∧ c = sql_eq k v) ∧
    (criteria = [] ↔ ∀ k, k ∈ non_name_keys → d !! k = None).
Proof.
  intros Hok Hvalid.
  exists (omap (λ kop : string * (pyobj → sql_expr), kop.2 <$> d !! kop.1)
               (map_to_list _non_name_column_op)).
  assert (∀ c, c ∈ omap (λ kop : string * (pyobj → sql_expr), kop.2 <$> d !! kop.1)
                        (map_to_list _non_name_column_op) ↔
               ∃ k v, k ∈ non_name_keys ∧ d !! k = Some v ∧ c = sql_eq k v) as Hmem.
  { intros c. rewrite list_elem_of_omap. split.
    - intros ([k op] & Hin & Hc). cbn in Hc.
      apply elem_of_map_to_list, non_name_column_op_lookup in Hin as [Hin ->].
      destruct (d !! k) as [v|] eqn:Hk; [|done]. injection Hc as <-. eauto.
    - intros (k & v & Hin & Hk & ->). exists (k, sql_eq k). split.
      + by apply elem_of_map_to_list, non_name_column_op_lookup.
      + cbn. by rewrite Hk. }
  split_and!; [| |done|].
  - rewrite _get_where_non_name_allowed by done.
    rewrite non_name_loop_spec; [by destruct (omap _ _)|].
    intros k op v Hin. apply elem_of_map_to_list in Hin.
    apply non_name_column_op_lookup in Hin as [Hin _]. by apply Hvalid.
  - by rewrite non_name_column_op_items.
  - split.
    + intros Hnil k Hin. destruct (d !! k) as [v|] eqn:Hk; [|done].
      pose proof (proj2 (Hmem (sql_eq k v))) as Habs. rewrite Hnil in Habs.
      destruct (not_elem_of_nil (sql_eq k v)). apply Habs. eauto.
    + intros Hnone. apply omap_absent. intros [k op] Hin. cbn.
      apply elem_of_map_to_list, non_name_column_op_lookup in Hin as [Hin _].
      by apply Hnone.
Qed.


(** The first loop of [_get_where_name] accepts exactly the valid entries. *)
Lemma name_criterion_raw_Return column_key value raw :
  name_criterion_raw column_key value = Return raw ↔
  valid_name_entry (column_key, value) raw.
Proof.
  unfold name_criterion_raw, valid_name_entry. cbn.
  destruct (name_columns !! column_key) as [column|].
  - destruct value as [| | | |s| | | |];
      try (split; [done|by intros (? & _ & [=] & _)]).
    destruct (String.eqb (py_strip s) "") eqn:Hs; cbn.
    + apply String.eqb_eq in Hs. split; [done|].
      by intros (? & _ & [= <-] & Hne & _).
    + apply String.eqb_neq in Hs. split.
      * intros [= <-]. by exists s.
      * intros (? & [= Hcol] & [= <-] & _ & Hraw).
        destruct raw as [c u]. cbn in *. by subst.
  - split; [done|]. by intros (? & [=] & _).
Qed.


Lemma name_criteria_raw_loop_Return items acc raws :
  Forall2 valid_name_entry items raws →
  name_criteria_raw_loop items acc = Return (acc ++ raws).
Proof.
  intros Hall. revert acc.
  induction Hall as [|[k v] raw items raws Hraw _ IH]; intros acc; cbn.
  - by rewrite app_nil_r.
  - apply name_criterion_raw_Return in Hraw as ->. cbn.
    by rewrite IH, <-app_assoc.
Qed.


(** Each name column has its two operators. *)
Lemma _name_column_op_lookup column_key column (exact : bool) :
  name_columns !! column_key = Some column →
  _name_column_op !! (column, exact) =
    Some ((if exact then sql_eq else sql_contains) column).
Proof.
  unfold name_columns.
  rewrite !lookup_insert_Some, lookup_singleton_Some.
  intros [[_ <-]|[_ [[_ <-]|[_ [[_ <-]|[_ [_ <-]]]]]]];
    by destruct exact.
Qed.

Lemma as_bool_key_hashable name_exact exact :
  as_bool_key name_exact = Some exact → hashable name_exact = true.
Proof. by destruct name_exact. Qed.

Lemma name_criteria_loop_Return name_exact exact raws acc :
  as_bool_key name_exact = Some exact →
  Forall (λ raw : string * string,
            ∃ column_key, name_columns !! column_key = Some raw.1) raws →
  name_criteria_loop name_exact raws acc =
    Return (acc ++ (name_clause exact <$> raws)).
Proof.
  intros Hexact Hall. revert acc.
  induction Hall as [|[column value] raws [column_key Hcol] _ IH]; intros acc; cbn.
  - by rewrite app_nil_r.
  - unfold _name_column_op_getitem.
    rewrite (as_bool_key_hashable _ _ Hexact), Hexact. cbn.
    rewrite (_name_column_op_lookup _ _ _ Hcol). cbn.
    by rewrite IH, <-app_assoc.
Qed.

Lemma name_criteria_loop_no_key name_exact raw raws acc :
  as_bool_key name_exact = None →
  ∃ cls text,
    name_criteria_loop name_exact (raw :: raws) acc
      = Raise (StandardError cls text) ∧
    (cls = "KeyError" ∨ cls = "TypeError").
Proof.
  intros Hexact. destruct raw as [column value]. cbn.
  unfold _name_column_op_getitem. rewrite Hexact.
  destruct (hashable name_exact); cbn; eauto 10.
Qed.

Lemma valid_name_entries_columns items raws :
  Forall2 valid_name_entry items raws →
  Forall (λ raw : string * string,
            ∃ column_key, name_columns !! column_key = Some raw.1) raws.
Proof.
  induction 1 as [|entry raw items raws (value & Hcol & _) _ IH];
    constructor; eauto.
Qed.


(** X16. A name filter with at least one entry needs a name_exact that
    equals True or False: when all entries are accepted and the operator
    resolves but name_exact is anything else (missing, None, a string),
    [_get_where_name] raises a KeyError, or a TypeError if name_exact is
    unhashable, instead of building a clause. *)
Theorem name_exact_must_be_boolean name name_exact name_op raws f :
  name ≠ ∅ →
  Forall2 valid_name_entry (map_to_list name) raws →
  name_op_resolves name_op f →
  as_bool_key name_exact = None →
  ∃ cls text,
    _get_where_name (PyDict name) name_exact name_op
      = Raise (StandardError cls text) ∧
    (cls = "KeyError" ∨ cls = "TypeError").
Proof.
  intros Hne Hvalid Hop Hexact.
  rewrite (_get_where_name_resolved name _ _ f raws Hop)
    by by rewrite (name_criteria_raw_loop_Return _ [] raws).
  destruct raws as [|raw raws].
  { apply Forall2_nil_inv_r, map_to_list_empty_iff in Hvalid. done. }
  destruct (name_criteria_loop_no_key name_exact raw raws [] Hexact)
    as (cls & text & -> & Hcls).
  by exists cls, text.
Qed.

(** X17. When every entry of the name filter is accepted, the operator
    resolves and name_exact equals a boolean, [_get_where_name] returns the
    operator applied to one clause per entry, in the order of the entries:
    equality with the stripped, upper-case value on the upper-case column
    when name_exact is true, containment when it is false; for an empty
    filter it returns None. *)
Theorem name_where_built name name_exact name_op raws f exact :
  Forall2 valid_name_entry (map_to_list name) raws →
  name_op_resolves name_op f →
  as_bool_key name_exact = Some exact →
  _get_where_name (PyDict name) name_exact name_op =
    Return (if bool_decide (name = ∅) then None
            else Some (f (name_clause exact <$> raws))) ∧
  length raws = size name.
Proof.
  intros Hvalid Hop Hexact. split.
  - rewrite (_get_where_name_resolved name _ _ f raws Hop)
      by by rewrite (name_criteria_raw_loop_Return _ [] raws).
    destruct raws as [|raw raws].
    + apply Forall2_nil_inv_r, map_to_list_empty_iff in Hvalid as ->.
      by rewrite bool_decide_eq_true_2.
    + rewrite bool_decide_eq_false_2.
      2:{ intros ->. rewrite map_to_list_empty in Hvalid.
          by apply Forall2_nil_inv_l in Hvalid. }
      rewrite (name_criteria_loop_Return _ exact) by
        (done || by eapply valid_name_entries_columns).
      done.
  - rewrite <-(Forall2_length _ _ _ Hvalid). apply length_map_to_list.
Qed.

(** X18. With a truthy user_id and no order_by (missing or falsy), [search]
    runs the query once, with the equality on user_id as its WHERE clause
    and the default ordering, and returns what the query returns. *)
Theorem search_by_user_id {Session SearchResults : Type}
    (util_search : pyobj → Session → attr → sql_expr → outcome SearchResults)
    (session : Session) d :
  truthy (get_or d "user_id" PyNone) = true →
  truthy (get_or d "order_by" PyNone) = false →
  SSOSearch.search (λ _, _get_where) util_search SSOSearch.__init__ session
    (PyDict d) =
  util_search (PyDict d) session
    (AClauses [asc "display_name"; asc "username"; asc "sign_up_time";
               asc "user_id"])
    (sql_eq "user_id" (get_or d "user_id" PyNone)).
Proof.
  intros Hid Horder. unfold SSOSearch.search.
  rewrite (proj1 (unique_key_where d) Hid). cbn.
  fold (get_or d "order_by" PyNone). rewrite Horder.
  by rewrite getattr_default.
Qed.

(** X22. Without a unique key and with a name filter, [_get_where] first
    builds the name clause and then the non-name clause: an exception of the
    name filter is raised before the non-name criteria and the email guard
    are looked at; when both clauses are built the WHERE clause is their
    conjunction, and the name clause alone when no non-name key is given. *)
Theorem where_combines_name_and_non_name d :
  no_unique_key d → is_Some (d !! "name") →
  (∀ e, _get_where_name (get_or d "name" PyNone) (get_or d "name_exact" PyNone)
                        (get_or d "name_op" PyNone) = Raise e →
        _get_where (PyDict d) = Raise e) ∧
  (∀ name_where,
     _get_where_name (get_or d "name" PyNone) (get_or d "name_exact" PyNone)
                     (get_or d "name_op" PyNone) = Return (Some name_where) →
     (∀ e, _get_where_non_name (PyDict d) = Raise e →
           _get_where (PyDict d) = Raise e) ∧
     (∀ non_name_where,
        _get_where_non_name (PyDict d) = Return (Some non_name_where) →
        _get_where (PyDict d) = Return (sql_and [name_where; non_name_where])) ∧
     (_get_where_non_name (PyDict d) = Return None →
      _get_where (PyDict d) = Return name_where)).
Proof.
  intros Hkey Hname. rewrite no_unique_key_shortcut by done.
  rewrite bool_decide_eq_true_2 by done. split.
  - by intros e ->.
  - intros name_where ->. cbn. split_and!.
    + by intros e ->.
    + by intros non_name_where ->.
    + by intros ->.
Qed.

End user_search_where.

(** ** Properties of the item model *)

Section item_model.
Implicit Types (d : gmap string pyobj).

(** X19. Parsing the dict an item serialises to gives the item back, with
    needs_response computed anew from the id: it is the same item exactly
    when needs_response says whether the id is given. *)
Theorem JSONRPCItem_from_dict_to_dict (item : JSONRPCItem.t) :
  JSONRPCItem.from_dict (JSONRPCItem.to_dict item) =
    Return {| JSONRPCItem.jsonrpc := JSONRPCItem.jsonrpc item;
              JSONRPCItem.method := JSONRPCItem.method item;
              JSONRPCItem.params := JSONRPCItem.params item;
              JSONRPCItem.id := JSONRPCItem.id item;
              JSONRPCItem.needs_response :=
                negb (is_NotGiven (JSONRPCItem.id item)) |} ∧
  (JSONRPCItem.from_dict (JSONRPCItem.to_dict item) = Return item ↔
   JSONRPCItem.needs_response item = negb (is_NotGiven (JSONRPCItem.id item))).
Proof.
  destruct item as [jsonrpc method params id needs_response].
  split; [reflexivity|]. cbn. split.
  - by intros [= <-].
  - by intros ->.
Qed.

(** X20. Parsing never fails on a dict.  Serialising the parsed item gives
    the dict back exactly when its keys are jsonrpc, method, params and id:
    other keys are dropped, and a missing key comes back as None, a missing
    id as the marker [NotGiven]. *)
Theorem JSONRPCItem_to_dict_from_dict d :
  ∃ item, JSONRPCItem.from_dict (PyDict d) = Return item ∧
    JSONRPCItem.needs_response item = negb (is_NotGiven (get_or d "id" NotGiven)) ∧
    (JSONRPCItem.to_dict item = PyDict d ↔
     dom d = {["jsonrpc"; "method"; "params"; "id"]}).
Proof.
  eexists. split; [reflexivity|]. split; [reflexivity|].
  unfold JSONRPCItem.to_dict. cbn. split.
  - intros [= <-]. rewrite !dom_insert_L, dom_singleton_L. set_solver.
  - intros Hdom. f_equal. apply map_eq. intros key.
    assert (∀ k default, k ∈ dom d →
              Some match d !! k with Some v => v | None => default end = d !! k)
      as Hget.
    { intros k default [v Hk]%elem_of_dom. by rewrite Hk. }
    destruct (decide (key = "jsonrpc")) as [->|?].
    { rewrite lookup_insert_eq. apply Hget. rewrite Hdom. set_solver. }
    rewrite lookup_insert_ne by done.
    destruct (decide (key = "method")) as [->|?].
    { rewrite lookup_insert_eq. apply Hget. rewrite Hdom. set_solver. }
    rewrite lookup_insert_ne by done.
    destruct (decide (key = "params")) as [->|?].
    { rewrite lookup_insert_eq. apply Hget. rewrite Hdom. set_solver. }
    rewrite lookup_insert_ne by done.
    destruct (decide (key = "id")) as [->|?].
    { rewrite lookup_singleton_eq. apply Hget. rewrite Hdom. set_solver. }
    rewrite lookup_singleton_ne by done.
    symmetry. apply not_elem_of_dom. rewrite Hdom.
    rewrite !elem_of_union, !elem_of_singleton. intuition.
Qed.

(** X21. What [ItemResponse.to_dict] returns always has jsonrpc "2.0" and
    the id of the response, and exactly one of result and error: the result
    when it is truthy, even if an error is set too, the error otherwise.
    It raises exactly when the result is falsy and no error is set. *)
Theorem ItemResponse_to_dict_one_of (out : ItemResponse.t) :
  (∀ r, ItemResponse.to_dict out = Return r →
     field r "jsonrpc" = Some (PyStr "2.0") ∧
     field r "id" = Some (ItemResponse.id out) ∧
     (truthy (ItemResponse.result out) = true →
        field r "result" = Some (ItemResponse.result out) ∧
        field r "error" = None) ∧
     (truthy (ItemResponse.result out) = false →
        field r "result" = None ∧
        ∃ err, ItemResponse.error out = Some err ∧
               field r "error" = Some (ErrorCtx.to_dict err))) ∧
  ((∃ e, ItemResponse.to_dict out = Raise e) ↔
   truthy (ItemResponse.result out) = false ∧ ItemResponse.error out = None).
Proof.
  unfold ItemResponse.to_dict, ItemResponse.error_to_dict.
  destruct (truthy (ItemResponse.result out)) eqn:Hres.
  - split.
    + intros r [= <-]. split_and!; [done..| |done]. by intros _.
    + split; [by intros [e [=]]|by intros [[=] _]].
  - destruct (ItemResponse.error out) as [err|]; cbn.
    + split.
      * intros r [= <-]. split_and!; [done..| |]; [done|].
        intros _. split; [done|]. by exists err.
      * split; [by intros [e [=]]|by intros [_ [=]]].
    + split; [done|]. split; [done|]. intros _. eauto.
Qed.

End item_model.

(** * Examples *)

#[local] Existing Instance sample_format.
#[local] Existing Instance sample_format_failure.

Import JSONRPCHandler.

(** The example of the specification: foo.bar is whitelisted and returns 42. *)
Example handle_sample_request :
  handle (sample_handler returns_42)
    (RequestContext.mk sample_cid sample_raw (PyDict sample_request))
  = Return (success_envelope (PyInt 7) (PyInt 42)).
Proof. reflexivity. Qed.

(** The same request when the whitelist does not hold foo.bar. *)
Example handle_unlisted_method :
  handle {| config := {| name := "sample"; service_whitelist := [] |};
            invoke_func := returns_42 |}
    (RequestContext.mk sample_cid sample_raw (PyDict sample_request))
  = Return (error_envelope (PyInt 7) sample_cid (-32601)
              "Method not supported `foo.bar` in `raw`").
Proof. reflexivity. Qed.

(** A batch of a request, a notification, a request with the version "1.0"
    and a message that is no object. *)
Example handle_sample_batch :
  handle (sample_handler returns_42)
    (RequestContext.mk sample_cid sample_raw
       (PyList [PyDict sample_request; PyDict sample_notification;
                PyDict request_v1; PyInt 3]))
  = Return (PyList
      [success_envelope (PyInt 7) (PyInt 42);
       PyNone;
       error_envelope (PyInt 7) sample_cid (-32600)
         "Unsupported JSON-RPC version `1.0` in `raw`";
       error_envelope PyNone sample_cid (-32000)
         "Message could not be handled"]).
Proof. reflexivity. Qed.

(** The values a backend may return that [if self.result] takes as false. *)
Example falsy_values :
  Forall (λ v, truthy v = false)
    [PyNone; PyBool false; PyInt 0; PyFloat 0%float; PyStr ""; PyList [];
     PyTuple []; PyDict ∅].
Proof. repeat constructor. Qed.

(** C6 as stated fails: the request has the version "1.0" and the original
    message is a list nested too deep to be rendered, so that formatting
    the message of the InvalidRequest raises inside the [try] block; the
    envelope carries -32000, not -32600. *)
Lemma unsupported_version_format_failure_counterexample :
  request_v1 !! "jsonrpc" ≠ Some (PyStr "2.0") ∧
  format_failure "Unsupported JSON-RPC version `{}` in `{}`"
                 [get_or request_v1 "jsonrpc" PyNone; deep_list]
    = Some ("RuntimeError"%string,
            "maximum recursion depth exceeded while getting the repr of a list"%string) ∧
  ∃ r, handle (sample_handler returns_42)
         (RequestContext.mk sample_cid deep_list (PyDict request_v1)) = Return r ∧
       is_error_envelope r ∧
       error_field r "code" = Some (PyInt (-32000)) ∧
       error_field r "code" ≠ Some (PyInt (-32600)).
Proof.
  split_and!; [by vm_compute|by vm_compute|].
  exists (error_envelope (PyInt 7) sample_cid (-32000) "Message could not be handled").
  split_and!; [by vm_compute|apply error_envelope_is_error|reflexivity|discriminate].
Qed.

Lemma unsupported_version_is_invalid_request_witness :
  request_v1 !! "jsonrpc" ≠ Some (PyStr "2.0") ∧
  ∃ r, _handle_one_item (sample_handler returns_42) sample_cid
         (PyDict request_v1) sample_raw = Return r ∧
       handle (sample_handler returns_42)
         (RequestContext.mk sample_cid sample_raw (PyDict request_v1)) = Return r ∧
       is_error_envelope r ∧
       (format_failure "Unsupported JSON-RPC version `{}` in `{}`"
                       [get_or request_v1 "jsonrpc" PyNone; sample_raw] = None →
        error_field r "code" = Some (PyInt (-32600))) ∧
       (∀ failure,
          format_failure "Unsupported JSON-RPC version `{}` in `{}`"
                         [get_or request_v1 "jsonrpc" PyNone; sample_raw]
            = Some failure →
          error_field r "code" = Some (PyInt (-32000))) ∧
       ∀ self', _handle_one_item self' sample_cid (PyDict request_v1) sample_raw
                = Return r.
Proof.
  split; [by vm_compute|].
  apply unsupported_version_is_invalid_request. by vm_compute.
Defined.

(** On the sample request with the version "1.0" the message is formatted,
    and the code is -32600. *)
Example unsupported_version_sample :
  format_failure "Unsupported JSON-RPC version `{}` in `{}`"
                 [get_or request_v1 "jsonrpc" PyNone; sample_raw] = None ∧
  handle (sample_handler returns_42)
    (RequestContext.mk sample_cid sample_raw (PyDict request_v1)) =
  Return (error_envelope (PyInt 7) sample_cid (-32600)
            "Unsupported JSON-RPC version `1.0` in `raw`").
Proof. split; by vm_compute. Qed.

Lemma response_id_echoes_request_id_witness :
  sample_request !! "id" = Some (PyInt 7) ∧ PyInt 7 ≠ NotGiven ∧
  ((∃ r, handle (sample_handler raises_ValueError)
           (RequestContext.mk sample_cid sample_raw (PyDict sample_request))
           = Return r ∧
         field r "id" = Some (PyInt 7) ∧
         (is_success_envelope r ∨ is_error_envelope r)) ∨
   (∃ e, handle (sample_handler raises_ValueError)
           (RequestContext.mk sample_cid sample_raw (PyDict sample_request))
           = Raise e ∧
         isinstance_Exception e = false ∧
         invoke_func (sample_handler raises_ValueError)
           (get_or sample_request "method" PyNone)
           (get_or sample_request "params" PyNone) = Raise e)).
Proof.
  split_and!; [reflexivity|discriminate|].
  apply response_id_echoes_request_id; [reflexivity|discriminate].
Defined.


Lemma unrecognized_failure_is_generic_witness :
  try_block (sample_handler raises_ValueError) sample_cid
    (PyDict sample_request) sample_raw ItemResponse.__init__
    = (Raise (StandardError "ValueError" "boom"),
       ItemResponse.set_id (PyInt 7) ItemResponse.__init__) ∧
  ∃ r, _handle_one_item (sample_handler raises_ValueError) sample_cid
         (PyDict sample_request) sample_raw = Return r ∧
       is_error_envelope r ∧
       error_field r "code" = Some (PyInt (-32000)) ∧
       error_field r "message" = Some (PyStr "Message could not be handled") ∧
       ∀ cls' text',
         except_block sample_cid (StandardError cls' text')
           (ItemResponse.set_id (PyInt 7) ItemResponse.__init__) = Return r.
Proof.
  split; [reflexivity|].
  apply (unrecognized_failure_is_generic _ _ _ _ "ValueError" "boom"). reflexivity.
Defined.

(** C3 as stated fails: the whitelisted foo.bar raises a ValueError, which is
    no JSON-RPC error kind, and the envelope carries -32000, not -32603. *)
Lemma unexpected_failure_is_internal_error_counterexample :
  sample_request !! "jsonrpc" = Some (PyStr "2.0") ∧
  can_handle (sample_handler raises_ValueError)
    (get_or sample_request "method" PyNone) = true ∧
  invoke_func (sample_handler raises_ValueError)
    (get_or sample_request "method" PyNone)
    (get_or sample_request "params" PyNone)
    = Raise (StandardError "ValueError" "boom") ∧
  ∃ r, _handle_one_item (sample_handler raises_ValueError) sample_cid
         (PyDict sample_request) sample_raw = Return r ∧
       error_field r "code" = Some (PyInt (-32000)) ∧
       error_field r "code" ≠ Some (PyInt (-32603)).
Proof.
  split_and!; [reflexivity..|].
  eexists. split_and!; [reflexivity|reflexivity|discriminate].
Qed.

Lemma backend_failure_code_witness :
  sample_request !! "jsonrpc" = Some (PyStr "2.0") ∧
  can_handle (sample_handler raises_ValueError)
    (get_or sample_request "method" PyNone) = true ∧
  invoke_func (sample_handler raises_ValueError)
    (get_or sample_request "method" PyNone)
    (get_or sample_request "params" PyNone)
    = Raise (StandardError "ValueError" "boom") ∧
  isinstance_Exception (StandardError "ValueError" "boom") = true ∧
  ∃ r, _handle_one_item (sample_handler raises_ValueError) sample_cid
         (PyDict sample_request) sample_raw = Return r ∧
       is_error_envelope r ∧
       (isinstance_JSONRPCException (StandardError "ValueError" "boom") = false →
          error_field r "code" = Some (PyInt (-32000))) ∧
       (error_field r "code" = Some (PyInt (-32603)) ↔
          ∃ cls cid' msg,
            StandardError "ValueError" "boom" = JSONRPCError cls cid' msg ∧
            (cls = InternalError ∨ ∃ name, cls = JSONRPCSubclass name (-32603))).
Proof.
  split_and!; [reflexivity..|].
  apply backend_failure_code; reflexivity.
Defined.

(** C9 as stated fails: the whitelisted foo.bar returns 0 for a notification,
    and the notification is answered with None, not with an error envelope. *)
Lemma falsy_result_notification_counterexample :
  sample_notification !! "id" = None ∧
  sample_notification !! "jsonrpc" = Some (PyStr "2.0") ∧
  can_handle (sample_handler returns_0)
    (get_or sample_notification "method" PyNone) = true ∧
  invoke_func (sample_handler returns_0)
    (get_or sample_notification "method" PyNone)
    (get_or sample_notification "params" PyNone) = Return (PyInt 0) ∧
  truthy (PyInt 0) = false ∧
  _handle_one_item (sample_handler returns_0) sample_cid
    (PyDict sample_notification) sample_raw = Return PyNone ∧
  ¬ is_error_envelope PyNone.
Proof.
  split_and!; [reflexivity..|]. by intros [[=] _].
Qed.

Lemma falsy_result_outcome_witness :
  sample_request !! "jsonrpc" = Some (PyStr "2.0") ∧
  can_handle (sample_handler returns_0)
    (get_or sample_request "method" PyNone) = true ∧
  invoke_func (sample_handler returns_0)
    (get_or sample_request "method" PyNone)
    (get_or sample_request "params" PyNone) = Return (PyInt 0) ∧
  truthy (PyInt 0) = false ∧
  ∃ r, _handle_one_item (sample_handler returns_0) sample_cid
         (PyDict sample_request) sample_raw = Return r ∧
       is_error_envelope r ∧
       error_field r "code" = Some (PyInt (-32000)) ∧
       field r "id" = Some (PyInt 7).
Proof.
  split_and!; [reflexivity..|].
  apply (proj1 (proj2 (falsy_result_outcome (sample_handler returns_0) sample_cid
                         sample_request sample_raw (PyInt 0)
                         eq_refl eq_refl eq_refl eq_refl)) (PyInt 7));
    [reflexivity|discriminate].
Defined.

(** C8: a notification with the version "1.0" fails, and the id of its error
    envelope is the marker [NotGiven], which is not None. *)
Theorem failed_notification_id_is_NotGiven :
  notification_v1 !! "id" = None ∧
  ∃ r, _handle_one_item (sample_handler returns_42) sample_cid
         (PyDict notification_v1) sample_raw = Return r ∧
       is_error_envelope r ∧
       field r "id" = Some NotGiven ∧
       field r "id" ≠ Some PyNone.
Proof.
  split; [reflexivity|]. eexists. split; [reflexivity|].
  split_and!; [apply error_envelope_is_error|reflexivity|discriminate].
Qed.

(** C2 as stated fails: a backend that is interrupted from the keyboard
    raises KeyboardInterrupt, which is no [Exception]; it escapes
    [_handle_one_item] and [handle]. *)
Lemma interrupt_escapes_counterexample :
  _handle_one_item (sample_handler interrupted) sample_cid
    (PyDict sample_request) sample_raw
    = Raise (SystemExiting "KeyboardInterrupt") ∧
  handle (sample_handler interrupted)
    (RequestContext.mk sample_cid sample_raw (PyDict sample_request))
    = Raise (SystemExiting "KeyboardInterrupt").
Proof. split; reflexivity. Qed.

Lemma no_Exception_escapes_witness :
  raises_only_Exception (invoke_func (sample_handler raises_ValueError)) ∧
  (∃ r, _handle_one_item (sample_handler raises_ValueError) sample_cid
          (PyDict sample_request) sample_raw = Return r ∧
     ∀ e out,
       try_block (sample_handler raises_ValueError) sample_cid
         (PyDict sample_request) sample_raw ItemResponse.__init__
         = (Raise e, out) →
       is_error_envelope r ∧
       error_cid r = Some sample_cid ∧
       error_field r "code" = Some (PyInt (reported e).1) ∧
       error_field r "message" = Some (PyStr (reported e).2)) ∧
  (∃ r, handle (sample_handler raises_ValueError)
          (RequestContext.mk sample_cid sample_raw
             (PyList [PyDict sample_request; PyInt 3])) = Return r).
Proof.
  assert (raises_only_Exception (invoke_func (sample_handler raises_ValueError)))
    as Hinv by (intros method params e [= <-]; reflexivity).
  split; [exact Hinv|].
  by apply no_Exception_escapes.
Defined.

(** C1 as stated fails: in this batch the first item is answered with an
    error envelope when it is handled alone, the invocation for the second
    is interrupted, and [handle] returns no list. *)
Lemma interrupted_batch_counterexample :
  (∃ r, _handle_one_item (sample_handler interrupted) sample_cid
          (PyDict request_v1) sample_raw = Return r ∧ is_error_envelope r) ∧
  handle (sample_handler interrupted)
    (RequestContext.mk sample_cid sample_raw
       (PyList [PyDict request_v1; PyDict sample_request]))
    = Raise (SystemExiting "KeyboardInterrupt") ∧
  ∀ out, handle (sample_handler interrupted)
           (RequestContext.mk sample_cid sample_raw
              (PyList [PyDict request_v1; PyDict sample_request]))
         ≠ Return (PyList out).
Proof.
  split_and!.
  - eexists. split; [reflexivity|]. apply error_envelope_is_error.
  - reflexivity.
  - intros out. discriminate.
Qed.

Lemma batch_entries_aligned_witness :
  raises_only_Exception (invoke_func (sample_handler returns_42)) ∧
  ∃ out,
    handle (sample_handler returns_42)
      (RequestContext.mk sample_cid sample_raw
         (PyList [PyDict sample_request; PyDict sample_notification;
                  PyDict request_v1]))
      = Return (PyList out) ∧
    length out = 3%nat ∧
    out !! 1%nat = Some PyNone.
Proof.
  assert (raises_only_Exception (invoke_func (sample_handler returns_42)))
    as Hinv by (intros method params e [=]).
  split; [exact Hinv|].
  destruct (batch_entries_aligned (sample_handler returns_42) sample_cid
              sample_raw
              [PyDict sample_request; PyDict sample_notification;
               PyDict request_v1] Hinv)
    as (out & Hout & Hlen & _ & Hnone & _).
  exists out. split_and!; [exact Hout|exact Hlen|].
  apply (Hnone 1%nat sample_notification); [reflexivity|].
  split_and!; [reflexivity..|]. by exists (PyInt 42).
Defined.

Lemma search_with_order_by_raises_witness :
  sample_search_config !! "order_by"
    = Some (PyList [PyDict {["username" := PyStr "asc"]}]) ∧
  SSOSearch.search sample_get_where sample_util_search SSOSearch.__init__ tt
    (PyDict sample_search_config)
  = Raise (StandardError "AttributeError"
             "'OrderBy' object has no attribute 'columns_allowed'").
Proof.
  split; [reflexivity|].
  apply (proj1 (proj2 (search_with_order_by_raises sample_get_where
                         sample_util_search tt sample_search_config
                         (PyDict {["username" := PyStr "asc"]}) [] eq_refl))
           tt "username" (PyStr "asc")); reflexivity.
Defined.

(** ** Examples for the further properties *)

#[local] Existing Instance sample_search_const.
#[local] Existing Instance sample_unicode_ops.

(** The configuration of [sql_search] gives the conjunction of the name
    clause and the status clause. *)
Example _get_where_sql_search_config :
  SSOSearchWhere._get_where (PyDict sql_search_config) =
    Return (sql_and
              [sql_and [sql_contains "last_name_upper" (PyStr "SMITH")];
               sql_and [sql_eq "sign_up_status" (PyStr "zzz")]]).
Proof. reflexivity. Qed.

Lemma unlisted_method_is_method_not_found_witness :
  unlisted_request !! "jsonrpc" = Some (PyStr "2.0") ∧
  format_failure "Method not supported `{}` in `{}`"
                 [get_or unlisted_request "method" PyNone; sample_raw] = None ∧
  _handle_one_item (sample_handler returns_42) sample_cid
    (PyDict unlisted_request) sample_raw =
    Return (error_envelope (PyInt 7) sample_cid (-32601)
              "Method not supported `nope` in `raw`") ∧
  _handle_one_item (sample_handler interrupted) sample_cid
    (PyDict unlisted_request) sample_raw =
  _handle_one_item (sample_handler returns_42) sample_cid
    (PyDict unlisted_request) sample_raw.
Proof.
  split; [reflexivity|]. split; [reflexivity|].
  destruct (unlisted_method_is_method_not_found (sample_handler returns_42)
              sample_cid unlisted_request sample_raw) as (Hans & _ & Hsame).
  - reflexivity.
  - intros s [= <-] Hin. apply list_elem_of_singleton in Hin. discriminate.
  - split; [apply Hans; reflexivity|]. exact (Hsame interrupted).
Defined.

(** The same request with an original message nested too deep to be
    rendered: formatting the message of the MethodNotFound raises, and the
    answer is the generic error. *)
Example unlisted_method_format_failure :
  _handle_one_item (sample_handler returns_42) sample_cid
    (PyDict unlisted_request) deep_list =
    Return (error_envelope (PyInt 7) sample_cid (-32000)
              "Message could not be handled").
Proof. by vm_compute. Qed.

Lemma truthy_result_is_success_witness :
  null_id_request !! "id" = Some PyNone ∧ PyNone ≠ NotGiven ∧
  ∃ r, _handle_one_item (sample_handler returns_42) sample_cid
         (PyDict null_id_request) sample_raw = Return r ∧
       field r "jsonrpc" = Some (PyStr "2.0") ∧
       field r "id" = Some PyNone ∧
       field r "result" = Some (PyInt 42) ∧
       field r "error" = None.
Proof.
  split_and!; [reflexivity|discriminate|].
  apply truthy_result_is_success; (reflexivity || discriminate).
Defined.

Lemma non_object_message_is_generic_error_witness :
  handle (sample_handler returns_42)
    (RequestContext.mk sample_cid sample_raw (PyStr "ping")) =
    Return (error_envelope PyNone sample_cid (-32000)
                           "Message could not be handled") ∧
  ∀ self', handle self' (RequestContext.mk sample_cid sample_raw (PyStr "ping")) =
           handle (sample_handler returns_42)
             (RequestContext.mk sample_cid sample_raw (PyStr "ping")).
Proof. apply non_object_message_is_generic_error; discriminate. Defined.

Lemma backend_jsonrpc_error_is_copied_witness :
  ∃ r, _handle_one_item (sample_handler raises_MethodNotFound) sample_cid
         (PyDict sample_request) sample_raw = Return r ∧
       error_field r "code" = Some (PyInt (-32601)) ∧
       error_field r "message" = Some (PyStr "no such service") ∧
       error_cid r = Some sample_cid ∧
       field r "id" = Some (PyInt 7) ∧
       field r "result" = None.
Proof.
  apply (backend_jsonrpc_error_is_copied (sample_handler raises_MethodNotFound)
           sample_cid sample_request sample_raw MethodNotFound
           (PyStr "cid-of-backend") "no such service"); reflexivity.
Defined.

Lemma error_code_origin_witness :
  _handle_one_item (sample_handler raises_MethodNotFound) sample_cid
    (PyDict sample_request) sample_raw =
    Return (error_envelope (PyInt 7) sample_cid (-32601) "no such service") ∧
  ∃ code, PyInt (-32601) = PyInt code ∧ -32700 ≤ code ≤ -32000.
Proof.
  split; [reflexivity|].
  apply (error_code_origin (sample_handler raises_MethodNotFound) sample_cid
           (PyDict sample_request) sample_raw
           (error_envelope (PyInt 7) sample_cid (-32601) "no such service"));
    [reflexivity|reflexivity|].
  intros method params cls cid' msg [= <- _ _]. cbn. lia.
Defined.

(** A backend that raises an exception of a class derived from
    JSONRPCException with the code 1: the envelope carries the code 1. *)
Example backend_subclass_code :
  _handle_one_item
    (sample_handler (λ _ _, Raise (JSONRPCError (JSONRPCSubclass "Custom" 1)
                                     PyNone "custom failure")))
    sample_cid (PyDict sample_request) sample_raw =
    Return (error_envelope (PyInt 7) sample_cid 1 "custom failure").
Proof. reflexivity. Qed.

Lemma handle_result_shape_witness :
  ∃ out, PyList [success_envelope (PyInt 7) (PyInt 42); PyNone] = PyList out ∧
         length out = 2%nat ∧
         Forall (λ entry, entry = PyNone ∨ ∃ fields, entry = PyDict fields) out.
Proof.
  apply (handle_result_shape (sample_handler returns_42) sample_cid
           (PyList [PyDict sample_request; PyDict sample_notification])
           sample_raw).
  reflexivity.
Defined.

Lemma singleton_batch_is_single_witness :
  handle (sample_handler returns_42)
    (RequestContext.mk sample_cid sample_raw (PyList [PyDict sample_request]))
    = Return (PyList [success_envelope (PyInt 7) (PyInt 42)]).
Proof.
  apply (proj1 (singleton_batch_is_single (sample_handler returns_42) sample_cid
                  (PyDict sample_request) sample_raw
                  (success_envelope (PyInt 7) (PyInt 42))
                  ltac:(discriminate))).
  reflexivity.
Defined.

Lemma unique_key_decides_where_witness :
  truthy (get_or user_id_config "user_id" PyNone) = true ∧
  SSOSearchWhere._get_where (PyDict user_id_config) =
    Return (sql_eq "user_id" (PyStr "u1")).
Proof.
  split; [reflexivity|].
  apply (proj1 (unique_key_decides_where user_id_config)). reflexivity.
Defined.


Lemma email_lookup_guard_witness :
  email_lookup_refused email_only_config ∧
  SSOSearchWhere._get_where_non_name (PyDict email_only_config) =
    Raise (StandardError "ValueError" "Cannot look up users by email").
Proof.
  assert (email_lookup_refused email_only_config) as Href
    by (split; reflexivity).
  split; [exact Href|]. exact (proj1 (email_lookup_guard _ Href)).
Defined.

Lemma non_name_criteria_built_witness :
  ¬ email_lookup_refused status_config ∧
  ∃ criteria,
    SSOSearchWhere._get_where_non_name (PyDict status_config) =
      Return (match criteria with [] => None | _ => Some (sql_and criteria) end) ∧
    criteria ≡ₚ [sql_eq "email" PyNone; sql_eq "sign_up_status" (PyStr "zzz")] ∧
    (∀ c, c ∈ criteria ↔
          ∃ k v, k ∈ non_name_keys ∧ status_config !! k = Some v ∧ c = sql_eq k v) ∧
    (criteria = [] ↔ ∀ k, k ∈ non_name_keys → status_config !! k = None).
Proof.
  assert (¬ email_lookup_refused status_config) as Hok by (intros [[=] _]).
  split; [exact Hok|].
  apply non_name_criteria_built; [exact Hok|].
  intros k v Hin. unfold non_name_keys in Hin.
  rewrite !elem_of_cons, elem_of_nil in Hin.
  destruct Hin as [->|[->|[->|[]]]]; intros [= <-];
    unfold valid_non_name_value; eauto.
Defined.


Lemma name_exact_must_be_boolean_witness :
  as_bool_key PyNone = None ∧
  ∃ cls text,
    SSOSearchWhere._get_where_name (PyDict {["last_name" := PyStr " smith "]})
      PyNone PyNone = Raise (StandardError cls text) ∧
    (cls = "KeyError" ∨ cls = "TypeError").
Proof.
  split; [reflexivity|].
  apply (name_exact_must_be_boolean {["last_name" := PyStr " smith "]}
           PyNone PyNone [("last_name_upper", "SMITH")] sql_and).
  - apply insert_non_empty.
  - rewrite map_to_list_singleton. constructor; [|constructor].
    exists " smith ". split_and!; [reflexivity..|discriminate|reflexivity].
  - left. split; reflexivity.
  - reflexivity.
Defined.

Lemma name_where_built_witness :
  as_bool_key (PyBool false) = Some false ∧
  SSOSearchWhere._get_where_name (PyDict {["last_name" := PyStr " smith "]})
    (PyBool false) (PyStr "or") =
    Return (Some (sql_or [sql_contains "last_name_upper" (PyStr "SMITH")])).
Proof.
  split; [reflexivity|].
  destruct (name_where_built {["last_name" := PyStr " smith "]}
              (PyBool false) (PyStr "or") [("last_name_upper", "SMITH")]
              sql_or false) as [Hwhere _].
  - rewrite map_to_list_singleton. constructor; [|constructor].
    exists " smith ". split_and!; [reflexivity..|discriminate|reflexivity].
  - right. exists "or". split_and!; [reflexivity|discriminate| |reflexivity].
    cbn. set_solver.
  - reflexivity.
  - rewrite Hwhere. rewrite bool_decide_eq_false_2; [reflexivity|].
    apply insert_non_empty.
Defined.

Lemma search_by_user_id_witness :
  truthy (get_or user_id_config "user_id" PyNone) = true ∧
  truthy (get_or user_id_config "order_by" PyNone) = false ∧
  SSOSearch.search (λ _, SSOSearchWhere._get_where) echo_util_search
    SSOSearch.__init__ tt (PyDict user_id_config) =
    Return (AClauses [asc "display_name"; asc "username"; asc "sign_up_time";
                      asc "user_id"],
            sql_eq "user_id" (PyStr "u1")).
Proof.
  split_and!; [reflexivity..|].
  rewrite (search_by_user_id echo_util_search tt user_id_config);
    reflexivity.
Defined.

Lemma where_combines_name_and_non_name_witness :
  no_unique_key sql_search_config ∧ is_Some (sql_search_config !! "name") ∧
  SSOSearchWhere._get_where (PyDict sql_search_config) =
    Return (sql_and
              [sql_and [sql_contains "last_name_upper" (PyStr "SMITH")];
               sql_and [sql_eq "sign_up_status" (PyStr "zzz")]]).
Proof.
  assert (no_unique_key sql_search_config) as Hkey by (split; reflexivity).
  assert (is_Some (sql_search_config !! "name")) as Hname by (eexists; reflexivity).
  split_and!; [exact Hkey|exact Hname|].
  destruct (where_combines_name_and_non_name sql_search_config Hkey Hname)
    as [_ Hboth].
  destruct (Hboth (sql_and [sql_contains "last_name_upper" (PyStr "SMITH")]))
    as (_ & Hand & _); [reflexivity|].
  apply Hand. reflexivity.
Defined.
